(** * hf-agent: the agent assembly of [app.py]

    A shallow embedding of [src/app.py]: the timezone tool, the prompt
    template loader with its in-place merge, the agent assembly
    [create_agent], the submit handler [process_request] and the entry
    point [run_app].

    Python objects that this module mutates live in a store of dict
    objects addressed by location, so that the sharing created by
    [DEFAULT_PROMPTS.copy()] is part of the model.  Collaborators the
    module only calls (the model backend, the tool hub, the YAML parser,
    the clock, the UI toolkit) appear as an environment of outcomes:
    each call either returns or raises. *)

From Stdlib Require Import Floats.SpecFloat.
From stdpp Require Import gmap strings list fin_maps.

Open Scope string_scope.

(** ** Exceptions

    Every [except] clause of the module but one is [except Exception];
    the remaining one is [except ImportError].  An exception is modelled
    by its class and by the text [str(e)] yields.  All modelled classes
    derive from [Exception]; interpreter signals that derive from
    [BaseException] only ([KeyboardInterrupt], [SystemExit]) are outside
    the model. *)

Inductive exn_class :=
| ImportError
| ModuleNotFoundError
| RuntimeError
| TypeError
| KeyError
| OSError
| YAMLError
| UnknownTimeZoneError
| OtherException (cls : string).

Record exn := Exn { exn_cls : exn_class; exn_str : string }.

(** [isinstance(e, ImportError)]: [ModuleNotFoundError] is the one
    subclass of [ImportError] among the modelled classes. *)
Definition is_ImportError (e : exn) : bool :=
  match exn_cls e with
  | ImportError | ModuleNotFoundError => true
  | _ => false
  end.

Inductive result (A : Type) :=
| Ok (a : A)
| Raise (e : exn).
Arguments Ok {A} a.
Arguments Raise {A} e.

(** ** Python data

    [pyval] is the data the YAML parser can hand back and the string
    constants of the module.  The loader only reads such values, so they
    are kept as immutable trees.  A mapping keeps its entries in insertion
    order; its keys are arbitrary hashable values. *)

#[local] Unset Elimination Schemes.
Inductive pyval :=
| YNone
| YBool (b : bool)
| YInt (n : Z)
| YFloat (f : spec_float)
| YStr (s : string)
| YBytes (bs : string)
| YTimestamp (iso : string)
| YTuple (xs : list pyval)
| YList (xs : list pyval)
| YSet (xs : list pyval)
| YDict (kvs : list (pyval * pyval)).
#[local] Set Elimination Schemes.

Abbreviation loc := nat.

(** What a slot of a dict object of this module holds: plain data, or a
    reference to another dict object of the store. *)
Inductive pyobj :=
| Val (v : pyval)
| Ref (l : loc).

(** A dict object: string keys in insertion order, no key twice. *)
Abbreviation dict_obj := (list (string * pyobj)).

Abbreviation heap := (gmap loc dict_obj).

(** ** Effects

    A computation takes the state (the store and the trace of what has
    happened so far) and yields a result, returned or raised, with the
    new state.  Logging and printing extend the trace and do not raise. *)

Inductive log_level := DEBUG | INFO | ERROR.

Inductive external :=
| CallFinalAnswerTool
| CallVisitWebpageTool
| CallHfApiModel
| CallLoadTool (repo : string) (trust_remote_code : bool)
| CallOpen (path : string)
| CallSafeLoad
| CallCodeAgent
| CallPytzTimezone (zone : string)
| CallNowStrftime (fmt : string)
| CallImport (module : string)
| CallBuildBlocks
| CallLaunch (server_name : string) (share debug : bool)
| CallAgent (task : string).

Inductive event :=
| Log (lvl : log_level) (msg : string)
| Print (msg : string)
| Call (what : external).

Record state := State { st_heap : heap; st_trace : list event }.

Definition M (A : Type) : Type := state → result A * state.

Definition ret {A} (a : A) : M A := λ st, (Ok a, st).

Definition bind {A B} (m : M A) (k : A → M B) : M B :=
  λ st, match m st with
        | (Ok a, st') => k a st'
        | (Raise e, st') => (Raise e, st')
        end.

Definition raise {A} (e : exn) : M A := λ st, (Raise e, st).

(** [try: body except Exception as e: handler e] *)
Definition try_except {A} (body : M A) (handler : exn → M A) : M A :=
  λ st, match body st with
        | (Ok a, st') => (Ok a, st')
        | (Raise e, st') => handler e st'
        end.

(** [try: body except ImportError as e: handler e]: any other exception
    leaves the statement uncaught. *)
Definition try_except_ImportError {A} (body : M A) (handler : exn → M A) : M A :=
  λ st, match body st with
        | (Ok a, st') => (Ok a, st')
        | (Raise e, st') =>
            if is_ImportError e then handler e st' else (Raise e, st')
        end.

Declare Scope py_scope.
Delimit Scope py_scope with py.
Notation "x <- m ;; k" := (bind m (λ x, k))
  (at level 100, m at next level, right associativity) : py_scope.
Notation "m ;;; k" := (bind m (λ _, k))
  (at level 100, right associativity) : py_scope.
Open Scope py_scope.

Definition emit (ev : event) : M unit :=
  λ st, (Ok tt, State (st_heap st) (st_trace st ++ [ev])).

Definition logger (lvl : log_level) (msg : string) : M unit := emit (Log lvl msg).
Definition print (msg : string) : M unit := emit (Print msg).

(** A call to a collaborator: the call is recorded, then its outcome is
    what the environment says. *)
Definition call {A} (what : external) (outcome : result A) : M A :=
  emit (Call what);;; (λ st, (outcome, st)).

Definition get_heap : M heap := λ st, (Ok (st_heap st), st).
Definition put_heap (h : heap) : M unit := λ st, (Ok tt, State h (st_trace st)).

Definition lift {A} (r : result A) : M A := λ st, (r, st).

(** ** Python operators on parsed data *)

(** [bool(v)], as the [if loaded_prompts:] test takes it. *)
Definition truthy (v : pyval) : bool :=
  match v with
  | YNone => false
  | YBool b => b
  | YInt n => negb (n =? 0)%Z
  | YFloat f => match f with S754_zero _ => false | _ => true end
  | YStr s => negb (String.eqb s EmptyString)
  | YBytes bs => negb (String.eqb bs EmptyString)
  | YTimestamp _ => true
  | YTuple xs | YList xs | YSet xs => match xs with [] => false | _ => true end
  | YDict kvs => match kvs with [] => false | _ => true end
  end.

(** [needle in hay] on two strings: substring test. *)
Fixpoint str_contains (needle hay : string) : bool :=
  String.prefix needle hay ||
  match hay with
  | EmptyString => false
  | String _ hay' => str_contains needle hay'
  end.

(** [x == k] for a string [k]: only a string equals a string. *)
Definition eq_str (k : string) (x : pyval) : bool :=
  match x with
  | YStr s => String.eqb s k
  | _ => false
  end.

Definition isinstance_dict (v : pyval) : bool :=
  match v with
  | YDict _ => true
  | _ => false
  end.

(** [type(v).__name__] as CPython's error texts print it.  [iso] is the
    [isoformat()] of a timestamp: the parser builds a [datetime.datetime]
    when the text has a time of day, a [datetime.date] when it has not. *)
Definition type_name (v : pyval) : string :=
  match v with
  | YNone => "NoneType"
  | YBool _ => "bool"
  | YInt _ => "int"
  | YFloat _ => "float"
  | YStr _ => "str"
  | YBytes _ => "bytes"
  | YTimestamp iso =>
      if str_contains ":" iso then "datetime.datetime" else "datetime.date"
  | YTuple _ => "tuple"
  | YList _ => "list"
  | YSet _ => "set"
  | YDict _ => "dict"
  end.

(** [k in v] for a string [k].  The error texts are CPython 3.11's. *)
Definition contains (k : string) (v : pyval) : result bool :=
  match v with
  | YStr s => Ok (str_contains k s)
  | YTuple xs | YList xs | YSet xs => Ok (existsb (eq_str k) xs)
  | YDict kvs => Ok (existsb (λ kv, eq_str k kv.1) kvs)
  | YBytes _ => Raise (Exn TypeError "a bytes-like object is required, not 'str'")
  | YNone | YBool _ | YInt _ | YFloat _ | YTimestamp _ =>
      Raise (Exn TypeError
               ("argument of type '" +:+ type_name v +:+ "' is not iterable"))
  end.

Fixpoint assoc_str (k : string) (kvs : list (pyval * pyval)) : option pyval :=
  match kvs with
  | [] => None
  | (x, v) :: kvs' => if eq_str k x then Some v else assoc_str k kvs'
  end.

(** [v[k]] for a string [k].  The error texts are CPython 3.11's. *)
Definition getitem (v : pyval) (k : string) : result pyval :=
  match v with
  | YDict kvs =>
      match assoc_str k kvs with
      | Some x => Ok x
      | None => Raise (Exn KeyError ("'" +:+ k +:+ "'"))
      end
  | YStr _ =>
      Raise (Exn TypeError "string indices must be integers, not 'str'")
  | YBytes _ =>
      Raise (Exn TypeError "byte indices must be integers or slices, not str")
  | YTuple _ =>
      Raise (Exn TypeError "tuple indices must be integers or slices, not str")
  | YList _ =>
      Raise (Exn TypeError "list indices must be integers or slices, not str")
  | YNone | YBool _ | YInt _ | YFloat _ | YTimestamp _ | YSet _ =>
      Raise (Exn TypeError ("'" +:+ type_name v +:+ "' object is not subscriptable"))
  end.

(** ** Dict objects of the store *)

Fixpoint dict_get (k : string) (d : dict_obj) : option pyobj :=
  match d with
  | [] => None
  | (k', x) :: d' => if String.eqb k' k then Some x else dict_get k d'
  end.

(** [d[k] = x]: an existing key keeps its place, a new one goes last. *)
Fixpoint dict_set (k : string) (x : pyobj) (d : dict_obj) : dict_obj :=
  match d with
  | [] => [(k, x)]
  | (k', y) :: d' =>
      if String.eqb k' k then (k', x) :: d' else (k', y) :: dict_set k x d'
  end.

Definition deref (l : loc) : M dict_obj :=
  h <- get_heap;;
  match h !! l with
  | Some d => ret d
  | None => raise (Exn RuntimeError "dangling reference")
  end.

(** [o[k]] where [o] is a slot value. *)
Definition obj_getitem (o : pyobj) (k : string) : M pyobj :=
  match o with
  | Ref l =>
      d <- deref l;;
      match dict_get k d with
      | Some x => ret x
      | None => raise (Exn KeyError ("'" +:+ k +:+ "'"))
      end
  | Val v => x <- lift (getitem v k);; ret (Val x)
  end.

(** [o[k] = x].  The loader assigns through [prompt_templates] and
    through the nested dicts it finds there, which are dict objects of the
    store ([loader_heap] below); it never assigns through parsed data.
    Scalars, strings and sequences refuse item assignment with a str key;
    the case of a parsed mapping, which this model keeps immutable, is
    given the same outcome and is not reached. *)
Definition obj_setitem (o : pyobj) (k : string) (x : pyobj) : M unit :=
  match o with
  | Ref l =>
      d <- deref l;;
      h <- get_heap;;
      put_heap (<[l := dict_set k x d]> h)
  | Val _ => raise (Exn TypeError "object does not support item assignment")
  end.

(** The keys [for key in o] runs over. *)
Definition obj_keys (o : pyobj) : M (list string) :=
  match o with
  | Ref l => d <- deref l;; ret (map fst d)
  | Val _ => raise (Exn TypeError "object is not iterable")
  end.

(** [d.copy()]: a new dict object with the same slots.  The slots are
    shared: a slot that refers to a nested dict refers to the same
    nested dict in the copy. *)
Definition dict_copy (l : loc) : M loc :=
  d <- deref l;;
  h <- get_heap;;
  let l' := fresh (dom h) in
  put_heap (<[l' := d]> h);;;
  ret l'.

Fixpoint for_each {A} (xs : list A) (body : A → M unit) : M unit :=
  match xs with
  | [] => ret tt
  | x :: xs' => body x;;; for_each xs' body
  end.

(** ** Reading a template set out of the store

    A [tree] is what one sees when following the references of a dict
    object: the nested mapping as a value.  [snapshot] follows references
    to the given depth; [templates_at] reads a template set, which is two
    levels deep. *)

#[local] Unset Elimination Schemes.
Inductive tree :=
| Leaf (v : pyval)
| Node (kvs : list (string * tree))
| Dangling.
#[local] Set Elimination Schemes.

Fixpoint snapshot (depth : nat) (h : heap) (o : pyobj) : tree :=
  match o with
  | Val v => Leaf v
  | Ref l =>
      match depth with
      | O => Dangling
      | S depth' =>
          match h !! l with
          | Some d => Node (map (λ kx, (kx.1, snapshot depth' h kx.2)) d)
          | None => Dangling
          end
      end
  end.

Definition templates_at (h : heap) (l : loc) : tree := snapshot 2 h (Ref l).

Fixpoint tree_get (k : string) (kvs : list (string * tree)) : option tree :=
  match kvs with
  | [] => None
  | (k', t) :: kvs' => if String.eqb k' k then Some t else tree_get k kvs'
  end.

(** [t[k1][k2]...] *)
Fixpoint tree_at (path : list string) (t : tree) : option tree :=
  match path with
  | [] => Some t
  | k :: path' =>
      match t with
      | Node kvs =>
          match tree_get k kvs with
          | Some t' => tree_at path' t'
          | None => None
          end
      | _ => None
      end
  end.

Fixpoint tree_put (k : string) (x : tree) (kvs : list (string * tree))
  : list (string * tree) :=
  match kvs with
  | [] => [(k, x)]
  | (k', t) :: kvs' =>
      if String.eqb k' k then (k', x) :: kvs' else (k', t) :: tree_put k x kvs'
  end.

(** The tree [t] with the one field [t[k1][k2]] replaced by [x]. *)
Definition tree_with (k1 k2 : string) (x : tree) (t : tree) : tree :=
  match t with
  | Node kvs =>
      match tree_get k1 kvs with
      | Some (Node sub) => Node (tree_put k1 (Node (tree_put k2 x sub)) kvs)
      | _ => t
      end
  | _ => t
  end.

(** ** Module state: [DEFAULT_PROMPTS] (lines 50-69) *)

Definition default_system_prompt : pyval :=
  YStr "You are an expert assistant who can solve any task using code blobs.".

Definition default_final_answer : list (string * pyval) :=
  [ ("pre_messages", YStr "Here is the final answer to your question:");
    ("post_messages", YStr "Hope this helps!") ].

Definition default_planning : list (string * pyval) :=
  [ ("initial_facts", YStr "First, let's identify what we know and what we need to find out.");
    ("initial_plan", YStr "Let's develop a step-by-step plan to solve this task.");
    ("update_facts_pre_messages", YStr "Let's update what we know based on our progress.");
    ("update_facts_post_messages", YStr "Here's our updated knowledge about the task.");
    ("update_plan_pre_messages", YStr "Let's review our plan based on what we've learned.");
    ("update_plan_post_messages", YStr "Here's our revised plan to complete the task.") ].

Definition default_managed_agent : list (string * pyval) :=
  [ ("task", YStr "You're a helpful agent named '{{name}}'. You have been submitted this task by your manager.");
    ("report", YStr "Here is the final answer from your managed agent '{{name}}': {{final_answer}}") ].

Definition leaves (kvs : list (string * pyval)) : tree :=
  Node (map (λ kv, (kv.1, Leaf kv.2)) kvs).

Definition vals (kvs : list (string * pyval)) : dict_obj :=
  map (λ kv, (kv.1, Val kv.2)) kvs.

(** The constant as the source writes it. *)
Definition DEFAULT_PROMPTS : tree :=
  Node [ ("system_prompt", Leaf default_system_prompt);
         ("final_answer", leaves default_final_answer);
         ("planning", leaves default_planning);
         ("managed_agent", leaves default_managed_agent) ].

(** Where the dict display of line 50 puts its four dict objects.  The
    module never rebinds the name [DEFAULT_PROMPTS], so it denotes
    [DEFAULT_PROMPTS_loc] for the life of the process. *)
Definition DEFAULT_PROMPTS_loc : loc := 0.
Definition final_answer_loc : loc := 1.
Definition planning_loc : loc := 2.
Definition managed_agent_loc : loc := 3.

Definition DEFAULT_PROMPTS_obj : dict_obj :=
  [ ("system_prompt", Val default_system_prompt);
    ("final_answer", Ref final_answer_loc);
    ("planning", Ref planning_loc);
    ("managed_agent", Ref managed_agent_loc) ].

(** The store right after the module has been imported. *)
Definition initial_heap : heap :=
  <[DEFAULT_PROMPTS_loc := DEFAULT_PROMPTS_obj]>
  (<[final_answer_loc := vals default_final_answer]>
  (<[planning_loc := vals default_planning]>
  (<[managed_agent_loc := vals default_managed_agent]> ∅))).

Definition initial_state : state := State initial_heap [].

(** ** The timezone tool (lines 30-46) *)

Record tzinfo := Tz { tz_zone : string }.

(** What the tool calls: [repr] (for the [{timezone=}] of the debug
    line), [pytz.timezone] and [datetime.datetime.now(tz).strftime]. *)
Record tz_env := {
  repr_str : string → string;
  pytz_timezone : string → result tzinfo;
  now_strftime : tzinfo → string → result string;
}.

Definition get_current_time_in_timezone (te : tz_env) (timezone : string) : M string :=
  logger DEBUG ("get_current_time_in_timezone timezone=" +:+ repr_str te timezone);;;
  try_except
    (tz <- call (CallPytzTimezone timezone) (pytz_timezone te timezone);;
     local_time <- call (CallNowStrftime "%Y-%m-%d %H:%M:%S")
                     (now_strftime te tz "%Y-%m-%d %H:%M:%S");;
     ret ("The current local time in " +:+ timezone +:+ " is: " +:+ local_time))
    (λ e,
      logger ERROR (exn_str e);;;
      ret ("Error fetching time for timezone '" +:+ timezone +:+ "': " +:+ exn_str e)).

(** ** Agent assembly (lines 72-147) *)

Inductive tool :=
| Tool_my_custom_tool
| Tool_get_current_time_in_timezone
| Tool_final_answer
| Tool_visit_webpage
| Tool_from_hub (repo : string).

Record model_handle := Model { model_id : string }.

(** The keyword arguments of the [CodeAgent(...)] call of line 137.
    [prompt_templates] is the dict object handed over, by reference. *)
Record CodeAgent := {
  model : model_handle;
  tools : list tool;
  max_steps : Z;
  verbosity_level : Z;
  grammar : option string;
  planning_interval : option Z;
  name : string;
  description : string;
  prompt_templates : loc;
}.

(** Outcomes of the collaborators [create_agent] calls.  [env_open]
    yields the stream of the named file, [env_safe_load] what the YAML
    parser makes of a stream. *)
Record environment := {
  env_FinalAnswerTool : result unit;
  env_VisitWebpageTool : result unit;
  env_HfApiModel : result model_handle;
  env_load_tool : string → bool → result tool;
  env_open : string → result string;
  env_safe_load : string → result pyval;
  env_CodeAgent : CodeAgent → result unit;
}.

(** Lines 100-101. *)
Definition merge_system_prompt (prompt_templates : loc) (loaded_prompts : pyval) : M unit :=
  c <- lift (contains "system_prompt" loaded_prompts);;
  if c : bool then
    v <- lift (getitem loaded_prompts "system_prompt");;
    obj_setitem (Ref prompt_templates) "system_prompt" (Val v)
  else ret tt.

(** Lines 104-112.  An assignment evaluates its right-hand side, then the
    target [prompt_templates["final_answer"]], then stores. *)
Definition merge_final_answer (prompt_templates : loc) (loaded_prompts : pyval) : M unit :=
  c <- lift (contains "final_answer" loaded_prompts);;
  if c : bool then
    fa <- lift (getitem loaded_prompts "final_answer");;
    if isinstance_dict fa then
      fa <- lift (getitem loaded_prompts "final_answer");;
      c_pre <- lift (contains "pre_messages" fa);;
      (if c_pre : bool then
         fa <- lift (getitem loaded_prompts "final_answer");;
         v <- lift (getitem fa "pre_messages");;
         target <- obj_getitem (Ref prompt_templates) "final_answer";;
         obj_setitem target "pre_messages" (Val v)
       else ret tt);;;
      fa <- lift (getitem loaded_prompts "final_answer");;
      c_post <- lift (contains "post_messages" fa);;
      (if c_post : bool then
         fa <- lift (getitem loaded_prompts "final_answer");;
         v <- lift (getitem fa "post_messages");;
         target <- obj_getitem (Ref prompt_templates) "final_answer";;
         obj_setitem target "post_messages" (Val v)
       else ret tt)
    else
      v <- lift (getitem loaded_prompts "final_answer");;
      target <- obj_getitem (Ref prompt_templates) "final_answer";;
      obj_setitem target "pre_messages" (Val v)
  else ret tt.

(** Lines 117-118, the body of the loop. *)
Definition merge_planning_key (prompt_templates : loc) (loaded_prompts : pyval)
    (key : string) : M unit :=
  pl <- lift (getitem loaded_prompts "planning");;
  c <- lift (contains key pl);;
  if c : bool then
    pl <- lift (getitem loaded_prompts "planning");;
    v <- lift (getitem pl key);;
    target <- obj_getitem (Ref prompt_templates) "planning";;
    obj_setitem target key (Val v)
  else ret tt.

(** Lines 115-118.  [and] evaluates its second operand only when the
    first holds. *)
Definition merge_planning (prompt_templates : loc) (loaded_prompts : pyval) : M unit :=
  c <- lift (contains "planning" loaded_prompts);;
  is_dict <- (if c : bool then
                pl <- lift (getitem loaded_prompts "planning");;
                ret (isinstance_dict pl)
              else ret false);;
  if is_dict : bool then
    iterable <- obj_getitem (Ref prompt_templates) "planning";;
    keys <- obj_keys iterable;;
    for_each keys (merge_planning_key prompt_templates loaded_prompts)
  else ret tt.

(** Lines 94-123: the prompt-configuration loading step.  Returns the
    dict object bound to [prompt_templates]. *)
Definition load_prompt_templates (env : environment) : M loc :=
  prompt_templates <- dict_copy DEFAULT_PROMPTS_loc;;
  try_except
    (stream <- call (CallOpen "prompts.yaml") (env_open env "prompts.yaml");;
     loaded_prompts <- call CallSafeLoad (env_safe_load env stream);;
     if truthy loaded_prompts then
       merge_system_prompt prompt_templates loaded_prompts;;;
       merge_final_answer prompt_templates loaded_prompts;;;
       merge_planning prompt_templates loaded_prompts;;;
       logger INFO "Successfully merged prompt templates"
     else ret tt)
    (λ e,
      logger ERROR ("Error loading prompts.yaml: " +:+ exn_str e);;;
      logger INFO "Using default templates");;;
  ret prompt_templates.

(** Lines 78-83. *)
Definition load_model (env : environment) : M model_handle :=
  try_except
    (model <- call CallHfApiModel (env_HfApiModel env);;
     logger INFO "Successfully loaded model";;;
     ret model)
    (λ e,
      logger ERROR ("Error loading model: " +:+ exn_str e);;;
      raise (Exn RuntimeError ("Failed to initialize model: " +:+ exn_str e))).

(** Lines 86-91: [None] stands for the [None] the handler binds. *)
Definition load_image_generation_tool (env : environment) : M (option tool) :=
  try_except
    (t <- call (CallLoadTool "agents-course/text-to-image" true)
            (env_load_tool env "agents-course/text-to-image" true);;
     logger INFO "Successfully loaded image generation tool";;;
     ret (Some t))
    (λ e,
      logger ERROR ("Error loading image generation tool: " +:+ exn_str e);;;
      ret None).

Definition create_agent (env : environment) : M CodeAgent :=
  call CallFinalAnswerTool (env_FinalAnswerTool env);;;
  call CallVisitWebpageTool (env_VisitWebpageTool env);;;
  model <- load_model env;;
  image_generation_tool <- load_image_generation_tool env;;
  prompt_templates <- load_prompt_templates env;;
  let tools :=
    [ Tool_my_custom_tool; Tool_get_current_time_in_timezone;
      Tool_final_answer; Tool_visit_webpage ] in
  (* a tool object is truthy: the test is on [None] alone *)
  let tools :=
    match image_generation_tool with
    | Some t => (tools ++ [t])%list
    | None => tools
    end in
  let agent :=
    {| model := model;
       tools := tools;
       max_steps := 6;
       verbosity_level := 1;
       grammar := None;
       planning_interval := None;
       name := "Agent";
       description := "A CodeAgent with improved capabilities";
       prompt_templates := prompt_templates |} in
  call CallCodeAgent (env_CodeAgent env agent);;;
  ret agent.

(** ** UI wiring (lines 150-208) *)

(** Lines 185-191.  [agent] is the invocation [agent(task)] of the
    assembled agent: it yields text or raises, and may do anything to the
    state on the way. *)
Definition process_request (agent : string → M string) (task : string) : M string :=
  try_except
    (result <- agent task;;
     ret result)
    (λ e,
      logger ERROR ("Error in agent processing: " +:+ exn_str e);;;
      ret ("Error processing your request: " +:+ exn_str e)).

(** Outcomes of the UI toolkit: the two imports, the construction of the
    page with its click binding (lines 168-197), and the launch. *)
Record ui_env := {
  env_import_gradio : result unit;
  env_import_Gradio_UI : result unit;
  env_build_blocks : result unit;
  env_launch : result unit;
}.

(** Lines 164-204: what the second [try] guards. *)
Definition start_application (env : environment) (ui : ui_env) : M unit :=
  agent <- create_agent env;;
  call CallBuildBlocks (env_build_blocks ui);;;
  call (CallLaunch "0.0.0.0" false false) (env_launch ui).

Definition run_app (env : environment) (ui : ui_env) : M unit :=
  try_except_ImportError
    (call (CallImport "gradio") (env_import_gradio ui);;;
     call (CallImport "Gradio_UI") (env_import_Gradio_UI ui))
    (λ e,
      logger ERROR ("Error importing Gradio: " +:+ exn_str e);;;
      raise e);;;
  try_except
    (start_application env ui)
    (λ e,
      logger ERROR ("Failed to start application: " +:+ exn_str e);;;
      print ("Critical error: " +:+ exn_str e)).

(** * Specification vocabulary *)

(** ** Shapes of the store *)

(** The four dict objects of [DEFAULT_PROMPTS] are in place; [fa] and
    [pl] are what the nested [final_answer] and [planning] dicts hold. *)
Definition module_heap (fa pl : list (string * pyval)) (h : heap) : Prop :=
  h !! DEFAULT_PROMPTS_loc = Some DEFAULT_PROMPTS_obj ∧
  h !! final_answer_loc = Some (vals fa) ∧
  h !! planning_loc = Some (vals pl) ∧
  h !! managed_agent_loc = Some (vals default_managed_agent).

(** [DEFAULT_PROMPTS] still holds what the source wrote into it. *)
Definition pristine (h : heap) : Prop :=
  module_heap default_final_answer default_planning h.

(** The module is loaded: the constant has its shape, whatever values
    its nested [final_answer] and [planning] dicts hold by now. *)
Definition wf_heap (h : heap) : Prop :=
  ∃ fa pl,
    map fst fa = map fst default_final_answer ∧
    map fst pl = map fst default_planning ∧
    module_heap fa pl h.

(** The store while the loader runs: [pt] is the copy bound to
    [prompt_templates], whose [system_prompt] slot holds [sp]. *)
Definition loader_heap (pt : loc) (sp : pyval) (fa pl : list (string * pyval))
    (h : heap) : Prop :=
  module_heap fa pl h ∧
  h !! pt = Some (dict_set "system_prompt" (Val sp) DEFAULT_PROMPTS_obj) ∧
  pt ≠ DEFAULT_PROMPTS_loc ∧ pt ≠ final_answer_loc ∧
  pt ≠ planning_loc ∧ pt ≠ managed_agent_loc.

(** The template set with the given system prompt and nested values. *)
Definition template_tree (sp : pyval) (fa pl : list (string * pyval)) : tree :=
  Node [ ("system_prompt", Leaf sp);
         ("final_answer", leaves fa);
         ("planning", leaves pl);
         ("managed_agent", leaves default_managed_agent) ].

(** ** Conditions on the environment *)

(** Everything [create_agent] needs besides the optional parts is there:
    the two tool classes construct, the model backend hands out a
    handle, the agent class accepts its arguments. *)
Definition assembles (env : environment) : Prop :=
  env_FinalAnswerTool env = Ok tt ∧
  env_VisitWebpageTool env = Ok tt ∧
  (∃ m, env_HfApiModel env = Ok m) ∧
  (∀ a, env_CodeAgent env a = Ok tt).

(** [prompts.yaml] opens and parses to [doc]. *)
Definition loads (env : environment) (doc : pyval) : Prop :=
  ∃ stream, env_open env "prompts.yaml" = Ok stream ∧
            env_safe_load env stream = Ok doc.

(** [prompts.yaml] is absent or unreadable, or does not parse, or parses
    to an empty value. *)
Definition no_document (env : environment) : Prop :=
  (∃ e, env_open env "prompts.yaml" = Raise e) ∨
  (∃ stream, env_open env "prompts.yaml" = Ok stream ∧
     ((∃ e, env_safe_load env stream = Raise e) ∨
      (∃ doc, env_safe_load env stream = Ok doc ∧ truthy doc = false))).

(** The mapping the merge runs on, if there is one: the file opens, the
    parser returns, the value is truthy and it is a mapping. *)
Definition override_of (env : environment) : option (list (pyval * pyval)) :=
  match env_open env "prompts.yaml" with
  | Ok stream =>
      match env_safe_load env stream with
      | Ok doc =>
          if truthy doc then
            match doc with
            | YDict kvs => Some kvs
            | _ => None
            end
          else None
      | Raise _ => None
      end
  | Raise _ => None
  end.

(** ** The merge as a function on values

    What the three parts of the merge leave in the [system_prompt] slot
    and in the nested dicts, given the mapping they run on.  The step
    lemmas below relate the code to these functions. *)

Fixpoint kv_set (k : string) (v : pyval) (kvs : list (string * pyval))
  : list (string * pyval) :=
  match kvs with
  | [] => [(k, v)]
  | (k', y) :: kvs' =>
      if String.eqb k' k then (k', v) :: kvs' else (k', y) :: kv_set k v kvs'
  end.

Definition pick (k : string) (src : list (pyval * pyval)) (dst : list (string * pyval))
  : list (string * pyval) :=
  match assoc_str k src with
  | Some v => kv_set k v dst
  | None => dst
  end.

Definition merged_final_answer (kvs : list (pyval * pyval)) (fa : list (string * pyval))
  : list (string * pyval) :=
  match assoc_str "final_answer" kvs with
  | None => fa
  | Some (YDict sub) => pick "post_messages" sub (pick "pre_messages" sub fa)
  | Some x => kv_set "pre_messages" x fa
  end.

Definition merged_planning (kvs : list (pyval * pyval)) (pl : list (string * pyval))
  : list (string * pyval) :=
  match assoc_str "planning" kvs with
  | Some (YDict sub) => fold_left (λ acc k, pick k sub acc) (map fst pl) pl
  | _ => pl
  end.

Definition merged_system_prompt (o : option (list (pyval * pyval))) : pyval :=
  match o with
  | Some kvs => default default_system_prompt (assoc_str "system_prompt" kvs)
  | None => default_system_prompt
  end.

Definition merged_fa (o : option (list (pyval * pyval))) (fa : list (string * pyval))
  : list (string * pyval) :=
  match o with
  | Some kvs => merged_final_answer kvs fa
  | None => fa
  end.

Definition merged_pl (o : option (list (pyval * pyval))) (pl : list (string * pyval))
  : list (string * pyval) :=
  match o with
  | Some kvs => merged_planning kvs pl
  | None => pl
  end.

(** ** Weakest preconditions for the effect monad *)

Definition wp {A} (m : M A) (st : state) (Q : result A → state → Prop) : Prop :=
  Q (m st).1 (m st).2.

(** The postcondition of a part of the merge: it returns, leaves the
    trace alone and establishes [P] on the store. *)
Definition merged (tr : list event) (P : heap → Prop) : result unit → state → Prop :=
  λ r st', r = Ok tt ∧ st_trace st' = tr ∧ P (st_heap st').

(** The tools every assembled agent has. *)
Definition base_tools : list tool :=
  [ Tool_my_custom_tool; Tool_get_current_time_in_timezone;
    Tool_final_answer; Tool_visit_webpage ].

(** ** Sample environments *)

Definition env_of (file : result string) (parsed : result pyval)
    (hub : result tool) (backend : result model_handle) : environment :=
  {| env_FinalAnswerTool := Ok tt;
     env_VisitWebpageTool := Ok tt;
     env_HfApiModel := backend;
     env_load_tool := λ _ _, hub;
     env_open := λ _, file;
     env_safe_load := λ _, parsed;
     env_CodeAgent := λ _, Ok tt |}.

Definition hub_tool : tool := Tool_from_hub "agents-course/text-to-image".
Definition backend_model : model_handle := Model "default".

(** No [prompts.yaml] in the working directory. *)
Definition env_no_file : environment :=
  env_of (Raise (Exn OSError "[Errno 2] No such file or directory: 'prompts.yaml'"))
    (Ok YNone) (Ok hub_tool) (Ok backend_model).

(** [prompts.yaml] parses to [doc]. *)
Definition env_with_doc (doc : pyval) : environment :=
  env_of (Ok "prompts.yaml") (Ok doc) (Ok hub_tool) (Ok backend_model).

Definition doc_final_answer_X : list (pyval * pyval) :=
  [ (YStr "final_answer", YStr "X") ].

Definition sub_initial_plan : list (pyval * pyval) :=
  [ (YStr "initial_plan", YStr "P"); (YStr "extra", YStr "E") ].

Definition doc_initial_plan : list (pyval * pyval) :=
  [ (YStr "planning", YDict sub_initial_plan) ].

Definition doc_managed_agent : list (pyval * pyval) :=
  [ (YStr "managed_agent", YDict [ (YStr "task", YStr "T") ]) ].

(** The tool hub cannot be reached. *)
Definition env_hub_down : environment :=
  env_of (Raise (Exn OSError "[Errno 2] No such file or directory: 'prompts.yaml'"))
    (Ok YNone) (Raise (Exn (OtherException "ConnectionError") "network unreachable"))
    (Ok backend_model).

(** The model backend cannot be reached. *)
Definition env_model_down : environment :=
  env_of (Raise (Exn OSError "[Errno 2] No such file or directory: 'prompts.yaml'"))
    (Ok YNone) (Ok hub_tool) (Raise (Exn OSError "backend unavailable")).

(** A clock and a timezone database that knows [UTC] only. *)
Definition tz_env_sample : tz_env :=
  {| repr_str := λ s, "'" +:+ s +:+ "'";
     pytz_timezone := λ zone,
       if String.eqb zone "UTC" then Ok (Tz zone)
       else Raise (Exn UnknownTimeZoneError ("'" +:+ zone +:+ "'"));
     now_strftime := λ _ _, Ok "2024-01-01 00:00:00" |}.


(** An agent whose invocation fails. *)
Definition failing_agent (task : string) : M string :=
  call (CallAgent task) (Raise (Exn RuntimeError "model timed out")).

(** The states of a process that has loaded the module and assembled
    agents any number of times. *)
Inductive reachable : state → Prop :=
| reachable_initial : reachable initial_state
| reachable_create_agent env st :
    reachable st → reachable (create_agent env st).2.

(** ** Further vocabulary *)

(** The store [h] is [h0] except, possibly, at the copy [pt] and at the
    two nested dicts the merge writes through. *)
Definition agree_outside (pt : loc) (h0 h : heap) : Prop :=
  ∀ l, l ≠ pt → l ≠ final_answer_loc → l ≠ planning_loc → h !! l = h0 !! l.

(** [loader_heap], with the rest of the store as it was in [h0]. *)
Definition framed_heap (h0 : heap) (pt : loc) (sp : pyval)
    (fa pl : list (string * pyval)) (h : heap) : Prop :=
  loader_heap pt sp fa pl h ∧ agree_outside pt h0 h.

(** The mandatory collaborators up to the agent class: the two tool
    classes construct and the model backend hands out [m]. *)
Definition prepares (env : environment) (m : model_handle) : Prop :=
  env_FinalAnswerTool env = Ok tt ∧
  env_VisitWebpageTool env = Ok tt ∧
  env_HfApiModel env = Ok m.

(** ** Further sample environments *)

(** [FinalAnswerTool()] raises. *)
Definition env_tools_down : environment :=
  {| env_FinalAnswerTool := Raise (Exn TypeError "__init__() missing argument");
     env_VisitWebpageTool := Ok tt;
     env_HfApiModel := Ok backend_model;
     env_load_tool := λ _ _, Ok hub_tool;
     env_open := λ _, Ok "prompts.yaml";
     env_safe_load := λ _, Ok YNone;
     env_CodeAgent := λ _, Ok tt |}.

(** [prompts.yaml] parses to [doc], and the agent class rejects its
    arguments. *)
Definition env_agent_rejects (doc : pyval) : environment :=
  {| env_FinalAnswerTool := Ok tt;
     env_VisitWebpageTool := Ok tt;
     env_HfApiModel := Ok backend_model;
     env_load_tool := λ _ _, Ok hub_tool;
     env_open := λ _, Ok "prompts.yaml";
     env_safe_load := λ _, Ok doc;
     env_CodeAgent := λ _, Raise (Exn (OtherException "ValueError") "bad arguments") |}.

Definition doc_system_prompt_42 : list (pyval * pyval) :=
  [ (YStr "system_prompt", YInt 42) ].

Definition sub_post_only : list (pyval * pyval) :=
  [ (YStr "post_messages", YStr "B"); (YStr "extra", YStr "E") ].

Definition doc_final_answer_map : list (pyval * pyval) :=
  [ (YStr "final_answer", YDict sub_post_only) ].

Definition doc_post_messages_B : list (pyval * pyval) :=
  [ (YStr "final_answer", YDict [ (YStr "post_messages", YStr "B") ]) ].

Definition doc_planning_text : list (pyval * pyval) :=
  [ (YStr "planning", YStr "think first") ].

Definition doc_all_sections : list (pyval * pyval) :=
  [ (YStr "system_prompt", YStr "S");
    (YStr "final_answer", YDict sub_post_only);
    (YStr "planning", YDict sub_initial_plan) ].

(** The UI toolkit is not installed. *)
Definition ui_no_gradio : ui_env :=
  {| env_import_gradio := Raise (Exn ModuleNotFoundError "No module named 'gradio'");
     env_import_Gradio_UI := Ok tt;
     env_build_blocks := Ok tt;
     env_launch := Ok tt |}.

(** The page cannot be built. *)
Definition ui_build_fails : ui_env :=
  {| env_import_gradio := Ok tt;
     env_import_Gradio_UI := Ok tt;
     env_build_blocks := Raise (Exn TypeError "unexpected keyword argument");
     env_launch := Ok tt |}.

(** The clock cannot format. *)
Definition tz_env_clock_fails : tz_env :=
  {| repr_str := λ s, "'" +:+ s +:+ "'";
     pytz_timezone := λ zone, Ok (Tz zone);
     now_strftime := λ _ _, Raise (Exn OSError "clock unavailable") |}.

(** An entry of a nested dict after the merge loop has seen the mapping
    [sub]: the document's value when [sub] has the key, else its own. *)
Definition overlay (sub : list (pyval * pyval)) (kv : string * pyval)
  : string * pyval :=
  (kv.1, default kv.2 (assoc_str kv.1 sub)).

(** What the loading step adds to the trace, where the outcome of open
    and parse settles it: it does for every case but a truthy document
    that is not a mapping, on which the merge may or may not raise. *)
Definition loading_log (env : environment) : option (list event) :=
  match env_open env "prompts.yaml" with
  | Raise e =>
      Some [ Call (CallOpen "prompts.yaml");
             Log ERROR ("Error loading prompts.yaml: " +:+ exn_str e);
             Log INFO "Using default templates" ]
  | Ok stream =>
      match env_safe_load env stream with
      | Raise e =>
          Some [ Call (CallOpen "prompts.yaml"); Call CallSafeLoad;
                 Log ERROR ("Error loading prompts.yaml: " +:+ exn_str e);
                 Log INFO "Using default templates" ]
      | Ok doc =>
          if truthy doc then
            match doc with
            | YDict _ =>
                Some [ Call (CallOpen "prompts.yaml"); Call CallSafeLoad;
                       Log INFO "Successfully merged prompt templates" ]
            | _ => None
            end
          else Some [ Call (CallOpen "prompts.yaml"); Call CallSafeLoad ]
      end
  end.

(** * Properties *)

(** ** Python operators and dict objects *)

Lemma dict_set_vals k v kvs : dict_set k (Val v) (vals kvs) = vals (kv_set k v kvs).
Proof.
  induction kvs as [|[k' y] kvs IH]; simpl; [done|].
  destruct (String.eqb k' k); simpl; [done|]. by rewrite <- IH.
Qed.

Lemma map_fst_vals kvs : map fst (vals kvs) = map fst kvs.
Proof. unfold vals. rewrite map_map. by apply map_ext. Qed.

Lemma kv_set_keys k v kvs : k ∈ map fst kvs → map fst (kv_set k v kvs) = map fst kvs.
Proof.
  induction kvs as [|[k' y] kvs IH]; simpl; intros Hin.
  - by apply elem_of_nil in Hin.
  - destruct (String.eqb k' k) eqn:E; simpl; [done|].
    f_equal. apply IH. apply elem_of_cons in Hin as [->|Hin]; [|done].
    by rewrite String.eqb_refl in E.
Qed.

Lemma contains_dict_some k kvs v :
  assoc_str k kvs = Some v → contains k (YDict kvs) = Ok true.
Proof.
  simpl. intros H. f_equal. induction kvs as [|[x w] kvs IH]; simpl in *; [done|].
  destruct (eq_str k x); simpl; [done|]. by apply IH.
Qed.

Lemma contains_dict_none k kvs :
  assoc_str k kvs = None → contains k (YDict kvs) = Ok false.
Proof.
  simpl. intros H. f_equal. induction kvs as [|[x w] kvs IH]; simpl in *; [done|].
  destruct (eq_str k x); simpl; [done|]. by apply IH.
Qed.

Lemma getitem_dict_some k kvs v :
  assoc_str k kvs = Some v → getitem (YDict kvs) k = Ok v.
Proof. simpl. by intros ->. Qed.

Lemma getitem_not_dict v k : isinstance_dict v = false → ∃ e, getitem v k = Raise e.
Proof. destruct v; simpl; intros; try discriminate; eauto. Qed.

(** ** Weakest preconditions for the effect monad *)

Lemma wp_run {A} (m : M A) st Q :
  wp m st Q → ∃ r st', m st = (r, st') ∧ Q r st'.
Proof. unfold wp. destruct (m st) as [r st']. eauto. Qed.

Lemma wp_conseq {A} (m : M A) st (Q Q' : result A → state → Prop) :
  wp m st Q' → (∀ r st', Q' r st' → Q r st') → wp m st Q.
Proof. unfold wp. auto. Qed.

Lemma wp_ret {A} (a : A) st Q : Q (Ok a) st → wp (ret a) st Q.
Proof. done. Qed.

Lemma wp_raise {A} e st (Q : result A → state → Prop) :
  Q (Raise e) st → wp (raise e) st Q.
Proof. done. Qed.

Lemma wp_lift {A} (r : result A) st Q : Q r st → wp (lift r) st Q.
Proof. done. Qed.

Lemma wp_bind {A B} (m : M A) (k : A → M B) st Q :
  wp m st (λ r st', match r with
                    | Ok a => wp (k a) st' Q
                    | Raise e => Q (Raise e) st'
                    end) →
  wp (bind m k) st Q.
Proof. unfold wp, bind. by destruct (m st) as [[a|e] st']. Qed.

Lemma wp_try_except {A} (body : M A) handler st Q :
  wp body st (λ r st', match r with
                       | Ok a => Q (Ok a) st'
                       | Raise e => wp (handler e) st' Q
                       end) →
  wp (try_except body handler) st Q.
Proof. unfold wp, try_except. by destruct (body st) as [[a|e] st']. Qed.

Lemma wp_emit ev st Q :
  Q (Ok tt) (State (st_heap st) (st_trace st ++ [ev])) → wp (emit ev) st Q.
Proof. done. Qed.

Lemma wp_call {A} what (outcome : result A) st Q :
  Q outcome (State (st_heap st) (st_trace st ++ [Call what])) →
  wp (call what outcome) st Q.
Proof. done. Qed.

Lemma wp_obj_getitem_ref l k d x st Q :
  st_heap st !! l = Some d → dict_get k d = Some x →
  Q (Ok x) st → wp (obj_getitem (Ref l) k) st Q.
Proof.
  intros Hl Hk HQ. unfold wp.
  cbv [obj_getitem deref bind get_heap ret]. by rewrite Hl, Hk.
Qed.

Lemma wp_obj_setitem_ref l k x d st Q :
  st_heap st !! l = Some d →
  Q (Ok tt) (State (<[l := dict_set k x d]> (st_heap st)) (st_trace st)) →
  wp (obj_setitem (Ref l) k x) st Q.
Proof.
  intros Hl HQ. unfold wp.
  cbv [obj_setitem deref bind get_heap ret put_heap]. by rewrite Hl.
Qed.

Lemma wp_obj_keys_ref l d st Q :
  st_heap st !! l = Some d → Q (Ok (map fst d)) st → wp (obj_keys (Ref l)) st Q.
Proof.
  intros Hl HQ. unfold wp. cbv [obj_keys deref bind get_heap ret]. by rewrite Hl.
Qed.

(** ** The three stores of the merge

    Each keeps the shape [loader_heap] and changes one component. *)

Section loader_steps.
Context (pt : loc).

Lemma wp_set_system_prompt sp fa pl v st :
  loader_heap pt sp fa pl (st_heap st) →
  wp (obj_setitem (Ref pt) "system_prompt" (Val v)) st
     (merged (st_trace st) (loader_heap pt v fa pl)).
Proof.
  intros ((H0 & H1 & H2 & H3) & Hpt & ? & ? & ? & ?).
  eapply wp_obj_setitem_ref; [done|].
  split; [done|]. split; [done|]. cbn [st_heap].
  unfold loader_heap, module_heap.
  rewrite lookup_insert_eq, !lookup_insert_ne by done. done.
Qed.

Lemma wp_set_final_answer sp fa pl k v st :
  loader_heap pt sp fa pl (st_heap st) →
  wp (target <- obj_getitem (Ref pt) "final_answer";;
      obj_setitem target k (Val v)) st
     (merged (st_trace st) (loader_heap pt sp (kv_set k v fa) pl)).
Proof.
  intros ((H0 & H1 & H2 & H3) & Hpt & ? & ? & ? & ?).
  apply wp_bind. eapply wp_obj_getitem_ref; [done..|].
  eapply wp_obj_setitem_ref; [done|].
  split; [done|]. split; [done|]. cbn [st_heap].
  rewrite dict_set_vals. unfold loader_heap, module_heap.
  rewrite lookup_insert_eq, !lookup_insert_ne by done. done.
Qed.

Lemma wp_set_planning sp fa pl k v st :
  loader_heap pt sp fa pl (st_heap st) →
  wp (target <- obj_getitem (Ref pt) "planning";;
      obj_setitem target k (Val v)) st
     (merged (st_trace st) (loader_heap pt sp fa (kv_set k v pl))).
Proof.
  intros ((H0 & H1 & H2 & H3) & Hpt & ? & ? & ? & ?).
  apply wp_bind. eapply wp_obj_getitem_ref; [done..|].
  eapply wp_obj_setitem_ref; [done|].
  split; [done|]. split; [done|]. cbn [st_heap].
  rewrite dict_set_vals. unfold loader_heap, module_heap.
  rewrite lookup_insert_eq, !lookup_insert_ne by done. done.
Qed.
End loader_steps.

(** Stepping through a computation, one construct at a time; a store
    through [prompt_templates] is left to the lemmas above. *)
Ltac wp_rule :=
  lazymatch goal with
  | |- wp (ret _) _ _ => apply wp_ret
  | |- wp (lift _) _ _ => apply wp_lift
  | |- wp (raise _) _ _ => apply wp_raise
  | |- wp (emit _) _ _ => apply wp_emit
  | |- wp (logger _ _) _ _ => apply wp_emit
  | |- wp (print _) _ _ => apply wp_emit
  | |- wp (call _ _) _ _ => apply wp_call
  | |- wp (try_except _ _) _ _ => apply wp_try_except
  | |- wp (bind ?m _) _ _ =>
      lazymatch m with
      | obj_getitem _ _ => fail
      | _ => apply wp_bind
      end
  end.

Ltac wp_pure :=
  repeat first
    [ wp_rule
    | erewrite contains_dict_some by eassumption
    | rewrite contains_dict_none by assumption
    | erewrite getitem_dict_some by eassumption
    | progress cbv beta iota
    | progress cbn [st_heap st_trace] ].

Ltac wp_use lem :=
  eapply wp_conseq; [eapply lem; eassumption|];
  let Htr := fresh "Htr" in
  intros ? ? (-> & Htr & ?); cbv beta iota.

Ltac merged_done :=
  unfold merged; split; [done|]; split; [congruence|]; try done.

(** ** The merge on a mapping *)

Section merge.
Context (pt : loc).

Lemma wp_merge_system_prompt_dict sp fa pl kvs st :
  loader_heap pt sp fa pl (st_heap st) →
  wp (merge_system_prompt pt (YDict kvs)) st
     (merged (st_trace st)
        (loader_heap pt (default sp (assoc_str "system_prompt" kvs)) fa pl)).
Proof.
  intros Hh. unfold merge_system_prompt.
  destruct (assoc_str "system_prompt" kvs) as [v|] eqn:E; wp_pure.
  - by eapply wp_set_system_prompt.
  - merged_done.
Qed.

Lemma wp_merge_final_answer_dict sp fa pl kvs st :
  loader_heap pt sp fa pl (st_heap st) →
  wp (merge_final_answer pt (YDict kvs)) st
     (merged (st_trace st)
        (loader_heap pt sp (merged_final_answer kvs fa) pl)).
Proof.
  intros Hh. unfold merge_final_answer, merged_final_answer.
  destruct (assoc_str "final_answer" kvs) as [x|] eqn:E; wp_pure;
    [|merged_done].
  destruct x as [| | | | | | | | | |sub]; cbn [isinstance_dict]; wp_pure;
    try by eapply wp_set_final_answer.
  unfold pick.
  destruct (assoc_str "pre_messages" sub) as [v1|] eqn:E1;
  destruct (assoc_str "post_messages" sub) as [v2|] eqn:E2; wp_pure.
  - wp_use wp_set_final_answer. wp_pure.
    wp_use wp_set_final_answer. merged_done.
  - wp_use wp_set_final_answer. wp_pure. merged_done.
  - wp_use wp_set_final_answer. merged_done.
  - merged_done.
Qed.

Lemma wp_merge_planning_key sp fa pl kvs sub key st :
  assoc_str "planning" kvs = Some (YDict sub) →
  loader_heap pt sp fa pl (st_heap st) →
  wp (merge_planning_key pt (YDict kvs) key) st
     (merged (st_trace st) (loader_heap pt sp fa (pick key sub pl))).
Proof.
  intros E Hh. unfold merge_planning_key, pick.
  destruct (assoc_str key sub) as [v|] eqn:Ek; wp_pure.
  - by eapply wp_set_planning.
  - merged_done.
Qed.

Lemma wp_merge_planning_loop sp fa kvs sub keys : ∀ pl st,
  assoc_str "planning" kvs = Some (YDict sub) →
  loader_heap pt sp fa pl (st_heap st) →
  wp (for_each keys (merge_planning_key pt (YDict kvs))) st
     (merged (st_trace st)
        (loader_heap pt sp fa (fold_left (λ acc k, pick k sub acc) keys pl))).
Proof.
  induction keys as [|key keys IH]; intros pl st E Hh; cbn [for_each fold_left].
  - wp_pure. merged_done.
  - apply wp_bind. wp_use wp_merge_planning_key.
    eapply wp_conseq; [by apply IH|].
    intros r st2 (-> & Htr2 & ?). merged_done.
Qed.

Lemma wp_merge_planning_dict sp fa pl kvs st :
  loader_heap pt sp fa pl (st_heap st) →
  wp (merge_planning pt (YDict kvs)) st
     (merged (st_trace st) (loader_heap pt sp fa (merged_planning kvs pl))).
Proof.
  intros Hh. unfold merge_planning, merged_planning.
  destruct (assoc_str "planning" kvs) as [x|] eqn:E; wp_pure; [|merged_done].
  destruct x as [| | | | | | | | | |sub]; cbn [isinstance_dict]; wp_pure;
    try merged_done.
  pose proof Hh as ((H0 & H1 & H2 & H3) & Hpt & _).
  apply wp_bind. eapply wp_obj_getitem_ref; [done..|].
  apply wp_bind. eapply wp_obj_keys_ref; [done|].
  rewrite map_fst_vals. by apply wp_merge_planning_loop.
Qed.
End merge.

(** ** The merge on anything else

    A truthy document that is not a mapping: each part of the merge
    either skips or raises before it stores anything. *)
Section merge_not_dict.
Context (pt : loc) (doc : pyval).
Hypothesis Hdoc : isinstance_dict doc = false.

Lemma wp_merge_system_prompt_other st :
  wp (merge_system_prompt pt doc) st (λ _ st', st' = st).
Proof.
  unfold merge_system_prompt. apply wp_bind, wp_lift.
  destruct (contains "system_prompt" doc) as [[|]|e]; [|done..].
  apply wp_bind, wp_lift.
  by destruct (getitem_not_dict doc "system_prompt" Hdoc) as [e ->].
Qed.

Lemma wp_merge_final_answer_other st :
  wp (merge_final_answer pt doc) st (λ _ st', st' = st).
Proof.
  unfold merge_final_answer. apply wp_bind, wp_lift.
  destruct (contains "final_answer" doc) as [[|]|e]; [|done..].
  apply wp_bind, wp_lift.
  by destruct (getitem_not_dict doc "final_answer" Hdoc) as [e ->].
Qed.

Lemma wp_merge_planning_other st :
  wp (merge_planning pt doc) st (λ _ st', st' = st).
Proof.
  unfold merge_planning. apply wp_bind, wp_lift.
  destruct (contains "planning" doc) as [[|]|e]; [| |done].
  - apply wp_bind, wp_bind, wp_lift.
    by destruct (getitem_not_dict doc "planning" Hdoc) as [e ->].
  - apply wp_bind, wp_ret. by apply wp_ret.
Qed.
End merge_not_dict.

(** ** The loading step as a whole *)

Lemma module_heap_in_dom fa pl h :
  module_heap fa pl h →
  fresh (dom h) ≠ DEFAULT_PROMPTS_loc ∧ fresh (dom h) ≠ final_answer_loc ∧
  fresh (dom h) ≠ planning_loc ∧ fresh (dom h) ≠ managed_agent_loc.
Proof.
  intros (H0 & H1 & H2 & H3).
  pose proof (is_fresh (dom h)) as Hf.
  repeat split; intros Heq; apply Hf; rewrite Heq; apply elem_of_dom; eauto.
Qed.

Lemma wp_dict_copy fa pl st :
  module_heap fa pl (st_heap st) →
  wp (dict_copy DEFAULT_PROMPTS_loc) st
     (λ r st', r = Ok (fresh (dom (st_heap st))) ∧ st_trace st' = st_trace st ∧
               loader_heap (fresh (dom (st_heap st))) default_system_prompt fa pl
                 (st_heap st')).
Proof.
  intros Hm. pose proof (module_heap_in_dom _ _ _ Hm) as (? & ? & ? & ?).
  destruct Hm as (Hd & Hfa & Hpl & Hma).
  unfold wp. cbv [dict_copy deref bind get_heap ret put_heap]. rewrite Hd.
  cbn [fst snd st_heap st_trace]. split; [done|]. split; [done|].
  unfold loader_heap, module_heap.
  rewrite lookup_insert_eq, !lookup_insert_ne by done. done.
Qed.

Lemma wp_load_prompt_templates env fa pl st :
  module_heap fa pl (st_heap st) →
  wp (load_prompt_templates env) st
     (λ r st', r = Ok (fresh (dom (st_heap st))) ∧
               loader_heap (fresh (dom (st_heap st)))
                 (merged_system_prompt (override_of env))
                 (merged_fa (override_of env) fa)
                 (merged_pl (override_of env) pl) (st_heap st')).
Proof.
  intros Hm. unfold load_prompt_templates, override_of.
  apply wp_bind. eapply wp_conseq; [by apply wp_dict_copy|].
  intros r st1 (-> & Htr & Hh). set (pt := fresh (dom (st_heap st))) in *.
  wp_pure.
  destruct (env_open env "prompts.yaml") as [stream|e]; wp_pure; [|done].
  destruct (env_safe_load env stream) as [doc|e]; wp_pure; [|done].
  destruct (truthy doc) eqn:Et; wp_pure; [|done].
  destruct (isinstance_dict doc) eqn:Ed.
  - destruct doc as [| | | | | | | | | |kvs]; try discriminate.
    wp_use wp_merge_system_prompt_dict. wp_pure.
    wp_use wp_merge_final_answer_dict. wp_pure.
    wp_use wp_merge_planning_dict. wp_pure. done.
  - assert (match doc with YDict kvs => Some kvs | _ => None end = None) as ->
      by (by destruct doc).
    eapply wp_conseq; [by apply wp_merge_system_prompt_other|].
    intros [[]|e] st2 ->; wp_pure; [|done].
    eapply wp_conseq; [by apply wp_merge_final_answer_other|].
    intros [[]|e] st2 ->; wp_pure; [|done].
    eapply wp_conseq; [by apply wp_merge_planning_other|].
    intros [[]|e] st2 ->; wp_pure; done.
Qed.

(** ** The shape of the constant is kept *)

Lemma pick_keys k src dst : k ∈ map fst dst → map fst (pick k src dst) = map fst dst.
Proof. unfold pick. destruct (assoc_str k src); [apply kv_set_keys|done]. Qed.

Lemma fold_pick_keys sub keys : ∀ pl,
  keys ⊆ map fst pl →
  map fst (fold_left (λ acc k, pick k sub acc) keys pl) = map fst pl.
Proof.
  induction keys as [|k keys IH]; intros pl Hsub; cbn [fold_left]; [done|].
  assert (map fst (pick k sub pl) = map fst pl) as Hk.
  { apply pick_keys, Hsub. by left. }
  rewrite IH; [done|]. rewrite Hk. intros x Hx. apply Hsub. by right.
Qed.

Lemma merged_fa_keys o fa :
  map fst fa = map fst default_final_answer →
  map fst (merged_fa o fa) = map fst default_final_answer.
Proof.
  intros Hfa. destruct o as [kvs|]; [|done]. cbn [merged_fa].
  unfold merged_final_answer.
  assert ("pre_messages" ∈ map fst fa) as Hpre
    by (rewrite Hfa; apply list_elem_of_here).
  assert ("post_messages" ∈ map fst fa) as Hpost
    by (rewrite Hfa; apply list_elem_of_further, list_elem_of_here).
  destruct (assoc_str "final_answer" kvs) as [x|]; [|done].
  destruct x; rewrite ?kv_set_keys by done; try done.
  rewrite pick_keys; rewrite pick_keys; done.
Qed.

Lemma merged_pl_keys o pl :
  map fst (merged_pl o pl) = map fst pl.
Proof.
  destruct o as [kvs|]; [|done]. cbn [merged_pl]. unfold merged_planning.
  destruct (assoc_str "planning" kvs) as [x|]; [|done].
  destruct x; try done. by apply fold_pick_keys.
Qed.

Lemma wf_heap_initial : wf_heap initial_heap.
Proof. exists default_final_answer, default_planning. by vm_compute. Qed.

Lemma pristine_initial : pristine initial_heap.
Proof. by vm_compute. Qed.

Lemma pristine_wf h : pristine h → wf_heap h.
Proof. intros Hp. by exists default_final_answer, default_planning. Qed.

Lemma loader_heap_wf pt sp fa pl h o :
  map fst fa = map fst default_final_answer →
  map fst pl = map fst default_planning →
  loader_heap pt sp (merged_fa o fa) (merged_pl o pl) h → wf_heap h.
Proof.
  intros Hfa Hpl (Hm & _). exists (merged_fa o fa), (merged_pl o pl).
  split; [by apply merged_fa_keys|]. split; [|done].
  by rewrite merged_pl_keys.
Qed.

(** ** Agent assembly *)

Lemma wp_create_agent env fa pl st :
  module_heap fa pl (st_heap st) → assembles env →
  wp (create_agent env) st
     (λ r st', ∃ agent,
        r = Ok agent ∧
        tools agent =
          (base_tools ++
           match env_load_tool env "agents-course/text-to-image" true with
           | Ok t => [t]
           | Raise _ => []
           end)%list ∧
        loader_heap (prompt_templates agent)
          (merged_system_prompt (override_of env))
          (merged_fa (override_of env) fa)
          (merged_pl (override_of env) pl) (st_heap st')).
Proof.
  intros Hm (Hfin & Hvis & [m Hmodel] & Hagent).
  unfold create_agent, load_model, load_image_generation_tool.
  rewrite Hfin, Hvis, Hmodel. wp_pure.
  destruct (env_load_tool env "agents-course/text-to-image" true) as [t|e];
    wp_pure.
  - eapply wp_conseq; [by apply wp_load_prompt_templates|].
    intros r st1 (-> & Hh). wp_pure. rewrite Hagent. wp_pure.
    eexists. split; [done|]. split; [done|]. done.
  - eapply wp_conseq; [by apply wp_load_prompt_templates|].
    intros r st1 (-> & Hh). wp_pure. rewrite Hagent. wp_pure.
    eexists. split; [done|]. split; [done|]. done.
Qed.

(** Whatever the collaborators do, [create_agent] either leaves the
    store as it found it, or leaves what the loading step made of it. *)
Lemma wp_create_agent_heap env fa pl st :
  module_heap fa pl (st_heap st) →
  wp (create_agent env) st
     (λ r st',
        st_heap st' = st_heap st ∨
        loader_heap (fresh (dom (st_heap st)))
          (merged_system_prompt (override_of env))
          (merged_fa (override_of env) fa)
          (merged_pl (override_of env) pl) (st_heap st')).
Proof.
  intros Hm. unfold create_agent, load_model, load_image_generation_tool.
  wp_pure. destruct (env_FinalAnswerTool env) as [[]|e]; wp_pure; [|by left].
  destruct (env_VisitWebpageTool env) as [[]|e]; wp_pure; [|by left].
  destruct (env_HfApiModel env) as [m|e]; wp_pure; [|by left].
  destruct (env_load_tool env "agents-course/text-to-image" true) as [t|e];
    wp_pure.
  - eapply wp_conseq; [by apply wp_load_prompt_templates|].
    intros r st1 (-> & Hh). wp_pure.
    match goal with |- context [env_CodeAgent env ?a] =>
      destruct (env_CodeAgent env a) as [[]|e'] end; wp_pure; by right.
  - eapply wp_conseq; [by apply wp_load_prompt_templates|].
    intros r st1 (-> & Hh). wp_pure.
    match goal with |- context [env_CodeAgent env ?a] =>
      destruct (env_CodeAgent env a) as [[]|e'] end; wp_pure; by right.
Qed.

(** The shape [wf_heap] holds when the module is loaded and after every
    call of [create_agent], whatever its outcome. *)
Lemma create_agent_preserves_wf env st :
  wf_heap (st_heap st) → wf_heap (st_heap (create_agent env st).2).
Proof.
  intros (fa & pl & Hfa & Hpl & Hm).
  pose proof (wp_create_agent_heap env fa pl st Hm) as H. unfold wp in H.
  destruct H as [->|H].
  - by exists fa, pl.
  - by eapply loader_heap_wf.
Qed.

Lemma reachable_wf st : reachable st → wf_heap (st_heap st).
Proof.
  induction 1 as [|env st _ IH].
  - exact wf_heap_initial.
  - by apply create_agent_preserves_wf.
Qed.

(** ** Reading template sets *)

Lemma snapshot_vals n h kvs :
  map (λ kx : string * pyobj, (kx.1, snapshot n h kx.2)) (vals kvs) =
  map (λ kv, (kv.1, Leaf kv.2)) kvs.
Proof. unfold vals. rewrite map_map. apply map_ext. intros [k v]. by destruct n. Qed.

Lemma snapshot_ref_vals n h l kvs :
  h !! l = Some (vals kvs) → snapshot (S n) h (Ref l) = leaves kvs.
Proof. intros Hl. cbn [snapshot]. rewrite Hl. unfold leaves. by rewrite snapshot_vals. Qed.

Lemma dict_set_system_prompt sp :
  dict_set "system_prompt" (Val sp) DEFAULT_PROMPTS_obj =
  [ ("system_prompt", Val sp); ("final_answer", Ref final_answer_loc);
    ("planning", Ref planning_loc); ("managed_agent", Ref managed_agent_loc) ].
Proof. reflexivity. Qed.

Lemma snapshot_top h l sp fa pl :
  module_heap fa pl h →
  h !! l = Some (dict_set "system_prompt" (Val sp) DEFAULT_PROMPTS_obj) →
  templates_at h l = template_tree sp fa pl.
Proof.
  intros (H0 & H1 & H2 & H3) Hl. unfold templates_at, template_tree.
  change (snapshot 2 h (Ref l)) with
    (match h !! l with
     | Some d => Node (map (λ kx : string * pyobj, (kx.1, snapshot 1 h kx.2)) d)
     | None => Dangling
     end).
  rewrite Hl, dict_set_system_prompt. cbn [map fst snd].
  rewrite (snapshot_ref_vals 0 h _ _ H1), (snapshot_ref_vals 0 h _ _ H2),
    (snapshot_ref_vals 0 h _ _ H3). reflexivity.
Qed.

Lemma templates_at_loader pt sp fa pl h :
  loader_heap pt sp fa pl h → templates_at h pt = template_tree sp fa pl.
Proof. intros (Hm & Hpt & _). by apply snapshot_top. Qed.

Lemma templates_at_module fa pl h :
  module_heap fa pl h →
  templates_at h DEFAULT_PROMPTS_loc = template_tree default_system_prompt fa pl.
Proof. intros Hm. apply snapshot_top; [done|]. by destruct Hm. Qed.

Lemma templates_at_pristine h :
  pristine h → templates_at h DEFAULT_PROMPTS_loc = DEFAULT_PROMPTS.
Proof. intros Hp. by rewrite (templates_at_module _ _ _ Hp). Qed.

Lemma override_of_none env : no_document env → override_of env = None.
Proof.
  unfold override_of.
  intros [[e ->]|(stream & -> & [[e ->]|(doc & -> & ->)])]; done.
Qed.

Lemma override_of_loads env kvs x :
  loads env (YDict (x :: kvs)) → override_of env = Some (x :: kvs).
Proof. unfold override_of. by intros (stream & -> & ->). Qed.

(** What a successful assembly returns and leaves behind: the agent's
    template set is the merge result; the nested dicts of the constant
    hold the merge result as well. *)
Lemma create_agent_templates env st fa pl :
  module_heap fa pl (st_heap st) → assembles env →
  ∃ agent st',
    create_agent env st = (Ok agent, st') ∧
    tools agent =
      (base_tools ++
       match env_load_tool env "agents-course/text-to-image" true with
       | Ok t => [t]
       | Raise _ => []
       end)%list ∧
    templates_at (st_heap st') (prompt_templates agent) =
      template_tree (merged_system_prompt (override_of env))
        (merged_fa (override_of env) fa) (merged_pl (override_of env) pl) ∧
    templates_at (st_heap st') DEFAULT_PROMPTS_loc =
      template_tree default_system_prompt
        (merged_fa (override_of env) fa) (merged_pl (override_of env) pl).
Proof.
  intros Hm Ha.
  destruct (wp_run _ _ _ (wp_create_agent env fa pl st Hm Ha))
    as (r & st' & Hrun & agent & -> & Htools & Hh).
  exists agent, st'. split; [done|]. split; [done|].
  split; [by apply templates_at_loader|].
  apply templates_at_module. by destruct Hh.
Qed.

(** Two entries under the keys of [default_final_answer]. *)
Lemma final_answer_shape (fa : list (string * pyval)) :
  map fst fa = map fst default_final_answer →
  ∃ a b, fa = [("pre_messages", a); ("post_messages", b)].
Proof.
  destruct fa as [|[k1 a] [|[k2 b] [|]]]; intros H; simplify_eq/=. eauto.
Qed.

(** Six entries under the keys of [default_planning]. *)
Lemma planning_shape (pl : list (string * pyval)) :
  map fst pl = map fst default_planning →
  ∃ p1 p2 p3 p4 p5 p6,
    pl = [ ("initial_facts", p1); ("initial_plan", p2);
           ("update_facts_pre_messages", p3); ("update_facts_post_messages", p4);
           ("update_plan_pre_messages", p5); ("update_plan_post_messages", p6) ].
Proof.
  destruct pl as [|[k1 p1] [|[k2 p2] [|[k3 p3] [|[k4 p4] [|[k5 p5] [|[k6 p6] [|]]]]]]];
    intros H; simplify_eq/=. eauto 10.
Qed.

(** ** Sample runs *)

Example timezone_utc :
  get_current_time_in_timezone tz_env_sample "UTC" initial_state =
    (Ok "The current local time in UTC is: 2024-01-01 00:00:00",
     State initial_heap
       [ Log DEBUG "get_current_time_in_timezone timezone='UTC'";
         Call (CallPytzTimezone "UTC");
         Call (CallNowStrftime "%Y-%m-%d %H:%M:%S") ]).
Proof. reflexivity. Qed.

Example process_request_failing_agent :
  process_request failing_agent "hello" initial_state =
    (Ok "Error processing your request: model timed out",
     State initial_heap
       [ Call (CallAgent "hello");
         Log ERROR "Error in agent processing: model timed out" ]).
Proof. reflexivity. Qed.

(** A truthy document that is no mapping: [loaded_prompts["system_prompt"]]
    raises on the list, the handler logs, the defaults stand. *)
Example list_document_keeps_defaults :
  ∃ agent st',
    create_agent (env_with_doc (YList [YStr "system_prompt"])) initial_state =
      (Ok agent, st') ∧
    templates_at (st_heap st') (prompt_templates agent) = DEFAULT_PROMPTS ∧
    st_trace st' =
      [ Call CallFinalAnswerTool; Call CallVisitWebpageTool;
        Call CallHfApiModel; Log INFO "Successfully loaded model";
        Call (CallLoadTool "agents-course/text-to-image" true);
        Log INFO "Successfully loaded image generation tool";
        Call (CallOpen "prompts.yaml"); Call CallSafeLoad;
        Log ERROR "Error loading prompts.yaml: list indices must be integers or slices, not str";
        Log INFO "Using default templates";
        Call CallCodeAgent ].
Proof. do 2 eexists. split; [vm_compute; reflexivity|]. by vm_compute. Qed.

(** A full override is merged field by field. *)
Example full_override :
  ∃ agent st',
    create_agent
      (env_with_doc
         (YDict [ (YStr "system_prompt", YStr "S");
                  (YStr "final_answer",
                   YDict [ (YStr "post_messages", YStr "B") ]);
                  (YStr "planning",
                   YDict [ (YStr "update_plan_post_messages", YStr "U");
                           (YStr "unknown", YInt 1) ]) ]))
      initial_state = (Ok agent, st') ∧
    templates_at (st_heap st') (prompt_templates agent) =
      Node [ ("system_prompt", Leaf (YStr "S"));
             ("final_answer",
              leaves [ ("pre_messages", YStr "Here is the final answer to your question:");
                       ("post_messages", YStr "B") ]);
             ("planning",
              leaves (kv_set "update_plan_post_messages" (YStr "U") default_planning));
             ("managed_agent", leaves default_managed_agent) ].
Proof. do 2 eexists. split; [vm_compute; reflexivity|]. by vm_compute. Qed.

(** A document that is a number: the first membership test raises. *)
Example number_document_keeps_defaults :
  ∃ pt st',
    load_prompt_templates (env_with_doc (YInt 7)) initial_state = (Ok pt, st') ∧
    templates_at (st_heap st') pt = DEFAULT_PROMPTS ∧
    st_trace st' =
      [ Call (CallOpen "prompts.yaml"); Call CallSafeLoad;
        Log ERROR "Error loading prompts.yaml: argument of type 'int' is not iterable";
        Log INFO "Using default templates" ].
Proof. do 2 eexists. split; [vm_compute; reflexivity|]. by vm_compute. Qed.

(** * Statements of the specification *)

Lemma assembles_env_of file parsed hub m : assembles (env_of file parsed hub (Ok m)).
Proof. repeat split; eauto. Qed.

(** X19.  When [prompts.yaml] is absent or unreadable, does not parse, or
    parses to an empty value, the template set handed to the agent is, key
    for key, what [DEFAULT_PROMPTS] holds when [create_agent] is entered;
    that is the compiled-in set as long as the constant is pristine. *)
Theorem X19_no_document_hands_out_entry_value env st :
  wf_heap (st_heap st) → assembles env → no_document env →
  ∃ agent st',
    create_agent env st = (Ok agent, st') ∧
    templates_at (st_heap st') (prompt_templates agent) =
      templates_at (st_heap st) DEFAULT_PROMPTS_loc ∧
    (pristine (st_heap st) →
     templates_at (st_heap st') (prompt_templates agent) = DEFAULT_PROMPTS).
Proof.
  intros (fa & pl & Hfa & Hpl & Hm) Ha Hno.
  destruct (create_agent_templates env st fa pl Hm Ha)
    as (agent & st' & Hrun & _ & Ht & _).
  rewrite (override_of_none env Hno) in Ht.
  cbn [merged_system_prompt merged_fa merged_pl] in Ht.
  exists agent, st'. split; [done|].
  assert (templates_at (st_heap st') (prompt_templates agent) =
          templates_at (st_heap st) DEFAULT_PROMPTS_loc) as Heq.
  { by rewrite Ht, (templates_at_module _ _ _ Hm). }
  split; [done|]. intros Hp. by rewrite Heq, templates_at_pristine.
Qed.

Lemma X19_witness :
  wf_heap (st_heap initial_state) ∧ assembles env_no_file ∧
  no_document env_no_file ∧ pristine (st_heap initial_state) ∧
  ∃ agent st',
    create_agent env_no_file initial_state = (Ok agent, st') ∧
    templates_at (st_heap st') (prompt_templates agent) = DEFAULT_PROMPTS.
Proof.
  assert (wf_heap (st_heap initial_state)) as Hwf by exact wf_heap_initial.
  assert (assembles env_no_file) as Ha by apply assembles_env_of.
  assert (no_document env_no_file) as Hno by (left; eexists; reflexivity).
  split; [exact Hwf|]. split; [exact Ha|]. split; [exact Hno|].
  split; [exact pristine_initial|].
  destruct (X19_no_document_hands_out_entry_value env_no_file initial_state Hwf Ha Hno)
    as (agent & st' & Hrun & _ & Hp).
  exists agent, st'. split; [exact Hrun|exact (Hp pristine_initial)].
Defined.

Lemma tree_at_final_answer sp fa pl k :
  tree_at ["final_answer"; k] (template_tree sp fa pl) =
  tree_get k (map (λ kv, (kv.1, Leaf kv.2)) fa).
Proof. cbn. by destruct (tree_get k _). Qed.

Lemma tree_at_planning sp fa pl k :
  tree_at ["planning"; k] (template_tree sp fa pl) =
  tree_get k (map (λ kv, (kv.1, Leaf kv.2)) pl).
Proof. cbn. by destruct (tree_get k _). Qed.

Lemma tree_at_managed_agent sp fa pl :
  tree_at ["managed_agent"] (template_tree sp fa pl) = Some (leaves default_managed_agent).
Proof. reflexivity. Qed.

Lemma loads_override env kvs k v :
  loads env (YDict kvs) → assoc_str k kvs = Some v → override_of env = Some kvs.
Proof.
  intros Hl Hk. destruct kvs as [|x kvs]; [done|]. by eapply override_of_loads.
Qed.

(** X20.  A [final_answer] given as a plain value [X] becomes
    [final_answer.pre_messages]; [final_answer.post_messages] keeps the
    value [DEFAULT_PROMPTS] holds when [create_agent] is entered, the
    compiled-in one when the constant is pristine. *)
Theorem X20_plain_final_answer_is_pre_messages env st kvs X :
  wf_heap (st_heap st) → assembles env → loads env (YDict kvs) →
  assoc_str "final_answer" kvs = Some X → isinstance_dict X = false →
  ∃ agent st',
    create_agent env st = (Ok agent, st') ∧
    tree_at ["final_answer"; "pre_messages"]
      (templates_at (st_heap st') (prompt_templates agent)) = Some (Leaf X) ∧
    tree_at ["final_answer"; "post_messages"]
      (templates_at (st_heap st') (prompt_templates agent)) =
    tree_at ["final_answer"; "post_messages"]
      (templates_at (st_heap st) DEFAULT_PROMPTS_loc) ∧
    (pristine (st_heap st) →
     tree_at ["final_answer"; "post_messages"]
       (templates_at (st_heap st') (prompt_templates agent)) =
     tree_at ["final_answer"; "post_messages"] DEFAULT_PROMPTS).
Proof.
  intros (fa & pl & Hfa & Hpl & Hm) Ha Hl HX Hplain.
  destruct (create_agent_templates env st fa pl Hm Ha)
    as (agent & st' & Hrun & _ & Ht & _).
  rewrite (loads_override _ _ _ _ Hl HX) in Ht.
  cbn [merged_system_prompt merged_fa merged_pl] in Ht.
  assert (merged_final_answer kvs fa = kv_set "pre_messages" X fa) as Hmerge.
  { unfold merged_final_answer. rewrite HX. by destruct X. }
  rewrite Hmerge in Ht.
  destruct (final_answer_shape fa Hfa) as (a & b & ->).
  exists agent, st'. split; [done|].
  assert (tree_at ["final_answer"; "post_messages"]
            (templates_at (st_heap st') (prompt_templates agent)) =
          tree_at ["final_answer"; "post_messages"]
            (templates_at (st_heap st) DEFAULT_PROMPTS_loc)) as Hpost.
  { by rewrite Ht, (templates_at_module _ _ _ Hm), !tree_at_final_answer. }
  split; [by rewrite Ht, tree_at_final_answer|].
  split; [done|]. intros Hp. by rewrite Hpost, templates_at_pristine.
Qed.

Lemma X20_witness :
  wf_heap (st_heap initial_state) ∧
  assembles (env_with_doc (YDict doc_final_answer_X)) ∧
  loads (env_with_doc (YDict doc_final_answer_X)) (YDict doc_final_answer_X) ∧
  assoc_str "final_answer" doc_final_answer_X = Some (YStr "X") ∧
  isinstance_dict (YStr "X") = false ∧
  pristine (st_heap initial_state) ∧
  ∃ agent st',
    create_agent (env_with_doc (YDict doc_final_answer_X)) initial_state =
      (Ok agent, st') ∧
    tree_at ["final_answer"; "pre_messages"]
      (templates_at (st_heap st') (prompt_templates agent)) =
      Some (Leaf (YStr "X")) ∧
    tree_at ["final_answer"; "post_messages"]
      (templates_at (st_heap st') (prompt_templates agent)) =
      Some (Leaf (YStr "Hope this helps!")).
Proof.
  assert (wf_heap (st_heap initial_state)) as Hwf by exact wf_heap_initial.
  assert (assembles (env_with_doc (YDict doc_final_answer_X))) as Ha
    by apply assembles_env_of.
  assert (loads (env_with_doc (YDict doc_final_answer_X)) (YDict doc_final_answer_X))
    as Hl by (eexists; split; reflexivity).
  repeat (split; [first [exact Hwf | exact Ha | exact Hl | reflexivity
                        | exact pristine_initial]|]).
  destruct (X20_plain_final_answer_is_pre_messages _ initial_state doc_final_answer_X (YStr "X")
              Hwf Ha Hl eq_refl eq_refl)
    as (agent & st' & Hrun & Hpre & _ & Hpost).
  exists agent, st'. split; [exact Hrun|]. split; [exact Hpre|].
  exact (Hpost pristine_initial).
Defined.

Lemma tree_get_None k (kvs : list (string * tree)) :
  k ∉ map fst kvs → tree_get k kvs = None.
Proof.
  induction kvs as [|[k' t] kvs IH]; cbn; intros Hk; [done|].
  destruct (String.eqb_spec k' k) as [->|Hne].
  - exfalso. apply Hk. by left.
  - apply IH. intros Hin. apply Hk. by right.
Qed.

(** X21.  A document that sets [planning.initial_plan] and nothing else
    the merge knows of changes that one field: every other field of the
    template set keeps the value [DEFAULT_PROMPTS] holds when
    [create_agent] is entered (the compiled-in one when the constant is
    pristine), and no key outside the six known ones shows up under
    [planning], whatever else the document carries. *)
Theorem X21_only_initial_plan_changes_one_field env st kvs sub v :
  wf_heap (st_heap st) → assembles env → loads env (YDict kvs) →
  assoc_str "system_prompt" kvs = None →
  assoc_str "final_answer" kvs = None →
  assoc_str "planning" kvs = Some (YDict sub) →
  assoc_str "initial_plan" sub = Some v →
  (∀ k, k ∈ map fst default_planning → k ≠ "initial_plan" →
        assoc_str k sub = None) →
  ∃ agent st',
    create_agent env st = (Ok agent, st') ∧
    templates_at (st_heap st') (prompt_templates agent) =
      tree_with "planning" "initial_plan" (Leaf v)
        (templates_at (st_heap st) DEFAULT_PROMPTS_loc) ∧
    (pristine (st_heap st) →
     templates_at (st_heap st') (prompt_templates agent) =
       tree_with "planning" "initial_plan" (Leaf v) DEFAULT_PROMPTS) ∧
    (∀ k, k ∉ map fst default_planning →
          tree_at ["planning"; k]
            (templates_at (st_heap st') (prompt_templates agent)) = None).
Proof.
  intros (fa & pl & Hfa & Hpl & Hm) Ha Hl Hsp Hfin Hplan Hv Hother.
  destruct (create_agent_templates env st fa pl Hm Ha)
    as (agent & st' & Hrun & _ & Ht & _).
  rewrite (loads_override _ _ _ _ Hl Hplan) in Ht.
  cbn [merged_system_prompt merged_fa merged_pl] in Ht.
  unfold merged_final_answer, merged_planning in Ht.
  rewrite Hsp, Hfin, Hplan in Ht.
  destruct (planning_shape pl Hpl) as (p1 & p2 & p3 & p4 & p5 & p6 & ->).
  cbn [map fst fold_left] in Ht. unfold pick in Ht.
  rewrite Hv in Ht.
  rewrite !Hother in Ht by (first [done | cbn; set_solver]).
  cbn [kv_set String.eqb Ascii.eqb Bool.eqb] in Ht.
  exists agent, st'. split; [done|].
  assert (templates_at (st_heap st') (prompt_templates agent) =
          tree_with "planning" "initial_plan" (Leaf v)
            (templates_at (st_heap st) DEFAULT_PROMPTS_loc)) as Heq.
  { by rewrite Ht, (templates_at_module _ _ _ Hm). }
  split; [done|]. split.
  - intros Hp. by rewrite Heq, templates_at_pristine.
  - intros k Hk. rewrite Ht, tree_at_planning. by apply tree_get_None.
Qed.

Lemma sub_initial_plan_others k :
  k ∈ map fst default_planning → k ≠ "initial_plan" →
  assoc_str k sub_initial_plan = None.
Proof.
  cbn. intros Hk Hne.
  repeat (apply elem_of_cons in Hk as [->|Hk]; [done|]).
  by apply elem_of_nil in Hk.
Qed.

Lemma X21_witness :
  wf_heap (st_heap initial_state) ∧
  assembles (env_with_doc (YDict doc_initial_plan)) ∧
  loads (env_with_doc (YDict doc_initial_plan)) (YDict doc_initial_plan) ∧
  assoc_str "system_prompt" doc_initial_plan = None ∧
  assoc_str "final_answer" doc_initial_plan = None ∧
  assoc_str "planning" doc_initial_plan = Some (YDict sub_initial_plan) ∧
  assoc_str "initial_plan" sub_initial_plan = Some (YStr "P") ∧
  (∀ k, k ∈ map fst default_planning → k ≠ "initial_plan" →
        assoc_str k sub_initial_plan = None) ∧
  pristine (st_heap initial_state) ∧
  ∃ agent st',
    create_agent (env_with_doc (YDict doc_initial_plan)) initial_state =
      (Ok agent, st') ∧
    templates_at (st_heap st') (prompt_templates agent) =
      Node [ ("system_prompt", Leaf default_system_prompt);
             ("final_answer", leaves default_final_answer);
             ("planning",
              leaves
                [ ("initial_facts", YStr "First, let's identify what we know and what we need to find out.");
                  ("initial_plan", YStr "P");
                  ("update_facts_pre_messages", YStr "Let's update what we know based on our progress.");
                  ("update_facts_post_messages", YStr "Here's our updated knowledge about the task.");
                  ("update_plan_pre_messages", YStr "Let's review our plan based on what we've learned.");
                  ("update_plan_post_messages", YStr "Here's our revised plan to complete the task.") ]);
             ("managed_agent", leaves default_managed_agent) ] ∧
    tree_at ["planning"; "extra"]
      (templates_at (st_heap st') (prompt_templates agent)) = None.
Proof.
  assert (wf_heap (st_heap initial_state)) as Hwf by exact wf_heap_initial.
  assert (assembles (env_with_doc (YDict doc_initial_plan))) as Ha
    by apply assembles_env_of.
  assert (loads (env_with_doc (YDict doc_initial_plan)) (YDict doc_initial_plan))
    as Hl by (eexists; split; reflexivity).
  repeat (split; [first [exact Hwf | exact Ha | exact Hl | reflexivity
                        | exact sub_initial_plan_others
                        | exact pristine_initial]|]).
  destruct (X21_only_initial_plan_changes_one_field _ initial_state doc_initial_plan sub_initial_plan
              (YStr "P") Hwf Ha Hl eq_refl eq_refl eq_refl eq_refl
              sub_initial_plan_others)
    as (agent & st' & Hrun & _ & Hp & Hunknown).
  exists agent, st'. split; [exact Hrun|]. split; [exact (Hp pristine_initial)|].
  apply Hunknown. cbn. intros Hin.
  repeat (apply elem_of_cons in Hin as [Hin|Hin]; [discriminate|]).
  by apply elem_of_nil in Hin.
Defined.

(** C9.  The [managed_agent] section of the template set handed to the
    agent is the compiled-in one, whatever [prompts.yaml] holds and
    whatever earlier calls have done to the constant. *)
Theorem C9_managed_agent_not_merged env st :
  wf_heap (st_heap st) → assembles env →
  ∃ agent st',
    create_agent env st = (Ok agent, st') ∧
    tree_at ["managed_agent"]
      (templates_at (st_heap st') (prompt_templates agent)) =
    tree_at ["managed_agent"] DEFAULT_PROMPTS.
Proof.
  intros (fa & pl & Hfa & Hpl & Hm) Ha.
  destruct (create_agent_templates env st fa pl Hm Ha)
    as (agent & st' & Hrun & _ & Ht & _).
  exists agent, st'. split; [done|]. by rewrite Ht, tree_at_managed_agent.
Qed.

Lemma C9_witness :
  wf_heap (st_heap initial_state) ∧
  assembles (env_with_doc (YDict doc_managed_agent)) ∧
  ∃ agent st',
    create_agent (env_with_doc (YDict doc_managed_agent)) initial_state =
      (Ok agent, st') ∧
    tree_at ["managed_agent"]
      (templates_at (st_heap st') (prompt_templates agent)) =
    tree_at ["managed_agent"] DEFAULT_PROMPTS.
Proof.
  assert (wf_heap (st_heap initial_state)) as Hwf by exact wf_heap_initial.
  assert (assembles (env_with_doc (YDict doc_managed_agent))) as Ha
    by apply assembles_env_of.
  split; [exact Hwf|]. split; [exact Ha|].
  exact (C9_managed_agent_not_merged _ initial_state Hwf Ha).
Defined.

(** C2.  The copy of line 94 is one level deep: the nested dicts of the
    copy are the nested dicts of the constant.  A first assembly with
    [final_answer: X] in [prompts.yaml] writes [X] into
    [DEFAULT_PROMPTS["final_answer"]]; a later assembly without any
    [prompts.yaml] then hands out [X], where a first call would have
    handed out the compiled-in text. *)
Theorem C2_copy_shares_nested_dicts :
  ∃ a1 st1 a2 st2 a0 st0,
    create_agent (env_with_doc (YDict doc_final_answer_X)) initial_state = (Ok a1, st1) ∧
    create_agent env_no_file st1 = (Ok a2, st2) ∧
    create_agent env_no_file initial_state = (Ok a0, st0) ∧
    tree_at ["final_answer"; "pre_messages"]
      (templates_at (st_heap st1) DEFAULT_PROMPTS_loc) = Some (Leaf (YStr "X")) ∧
    tree_at ["final_answer"; "pre_messages"]
      (templates_at (st_heap st2) (prompt_templates a2)) = Some (Leaf (YStr "X")) ∧
    tree_at ["final_answer"; "pre_messages"]
      (templates_at (st_heap st0) (prompt_templates a0)) =
      Some (Leaf (YStr "Here is the final answer to your question:")) ∧
    templates_at (st_heap st0) (prompt_templates a0) = DEFAULT_PROMPTS ∧
    templates_at (st_heap st2) (prompt_templates a2) ≠ DEFAULT_PROMPTS.
Proof.
  do 6 eexists.
  split; [vm_compute; reflexivity|].
  split; [vm_compute; reflexivity|].
  split; [vm_compute; reflexivity|].
  split; [vm_compute; reflexivity|].
  split; [vm_compute; reflexivity|].
  split; [vm_compute; reflexivity|].
  split; [vm_compute; reflexivity|].
  vm_compute. discriminate.
Qed.

(** C3.  The timezone tool always returns text.  When the timezone lookup
    raises, the text is the error message, which contains
    [Error fetching time for timezone]. *)
Theorem C3_timezone_tool_returns_text te timezone st :
  ∃ s st',
    get_current_time_in_timezone te timezone st = (Ok s, st') ∧
    ∀ e, pytz_timezone te timezone = Raise e →
      s = "Error fetching time for timezone '" +:+ timezone +:+ "': " +:+ exn_str e ∧
      str_contains "Error fetching time for timezone" s = true.
Proof.
  unfold get_current_time_in_timezone.
  cbv [bind try_except call emit logger ret].
  destruct (pytz_timezone te timezone) as [tz|e0].
  - destruct (now_strftime te tz "%Y-%m-%d %H:%M:%S") as [t|e1];
      do 2 eexists; (split; [reflexivity|]); intros e; discriminate.
  - do 2 eexists. split; [reflexivity|]. intros e [= <-]. split; reflexivity.
Qed.

Lemma C3_witness :
  pytz_timezone tz_env_sample "Not/ARealZone" =
    Raise (Exn UnknownTimeZoneError "'Not/ARealZone'") ∧
  ∃ s st',
    get_current_time_in_timezone tz_env_sample "Not/ARealZone" initial_state = (Ok s, st') ∧
    s = "Error fetching time for timezone 'Not/ARealZone': 'Not/ARealZone'" ∧
    str_contains "Error fetching time for timezone" s = true.
Proof.
  split; [reflexivity|].
  destruct (C3_timezone_tool_returns_text tz_env_sample "Not/ARealZone" initial_state)
    as (s & st' & Hrun & Herr).
  exists s, st'. split; [exact Hrun|]. exact (Herr _ eq_refl).
Defined.

Lemma prefix_append s t : String.prefix s (s +:+ t) = true.
Proof.
  induction s as [|a s IH].
  - by destruct t.
  - change (String.prefix (String a s) (String a (s +:+ t)) = true). simpl.
    destruct (Ascii.ascii_dec a a); [exact IH|done].
Qed.

(** C8.  The submit handler always returns text: the agent's answer, or,
    when the invocation raises, the message
    [Error processing your request: ] followed by the error text. *)
Theorem C8_process_request_returns_text agent task st :
  ∃ s st',
    process_request agent task st = (Ok s, st') ∧
    match agent task st with
    | (Ok answer, _) => s = answer
    | (Raise e, _) =>
        s = "Error processing your request: " +:+ exn_str e ∧
        String.prefix "Error processing your request: " s = true
    end.
Proof.
  unfold process_request. cbv [bind try_except emit logger ret].
  destruct (agent task st) as [[answer|e] st1];
    do 2 eexists; (split; [reflexivity|]); [done|].
  split; [reflexivity|apply prefix_append].
Qed.

(** C4.  When the model backend hands out no handle, [create_agent]
    raises a [RuntimeError] that carries the original message and returns
    no agent.  The trace ends with the logged error: neither the tool hub
    nor [prompts.yaml] has been touched, and the store is as it was. *)
Theorem C4_model_failure_is_fatal env st e :
  env_FinalAnswerTool env = Ok tt →
  env_VisitWebpageTool env = Ok tt →
  env_HfApiModel env = Raise e →
  create_agent env st =
    (Raise (Exn RuntimeError ("Failed to initialize model: " +:+ exn_str e)),
     State (st_heap st)
       (st_trace st ++
        [ Call CallFinalAnswerTool; Call CallVisitWebpageTool;
          Call CallHfApiModel;
          Log ERROR ("Error loading model: " +:+ exn_str e) ])).
Proof.
  intros Hfin Hvis Hmodel. unfold create_agent, load_model.
  cbv [bind try_except call emit logger ret raise st_heap st_trace].
  rewrite Hfin, Hvis, Hmodel. by rewrite <- !app_assoc.
Qed.

Lemma C4_witness :
  env_FinalAnswerTool env_model_down = Ok tt ∧
  env_VisitWebpageTool env_model_down = Ok tt ∧
  env_HfApiModel env_model_down = Raise (Exn OSError "backend unavailable") ∧
  create_agent env_model_down initial_state =
    (Raise (Exn RuntimeError "Failed to initialize model: backend unavailable"),
     State initial_heap
       [ Call CallFinalAnswerTool; Call CallVisitWebpageTool;
         Call CallHfApiModel;
         Log ERROR "Error loading model: backend unavailable" ]).
Proof.
  repeat (split; [reflexivity|]).
  exact (C4_model_failure_is_fatal env_model_down initial_state
           (Exn OSError "backend unavailable") eq_refl eq_refl eq_refl).
Defined.

(** C5.  When the image-generation tool cannot be loaded, assembly still
    returns an agent, with the four local and imported tools; when it can,
    it is the fifth. *)
Theorem C5_optional_tool env st :
  wf_heap (st_heap st) → assembles env →
  ∃ agent st',
    create_agent env st = (Ok agent, st') ∧
    match env_load_tool env "agents-course/text-to-image" true with
    | Raise _ =>
        tools agent =
          [ Tool_my_custom_tool; Tool_get_current_time_in_timezone;
            Tool_final_answer; Tool_visit_webpage ]
    | Ok t =>
        tools agent =
          [ Tool_my_custom_tool; Tool_get_current_time_in_timezone;
            Tool_final_answer; Tool_visit_webpage; t ]
    end.
Proof.
  intros (fa & pl & Hfa & Hpl & Hm) Ha.
  destruct (create_agent_templates env st fa pl Hm Ha)
    as (agent & st' & Hrun & Htools & _).
  exists agent, st'. split; [done|].
  by destruct (env_load_tool env "agents-course/text-to-image" true).
Qed.

Lemma C5_witness :
  wf_heap (st_heap initial_state) ∧ assembles env_hub_down ∧
  ∃ agent st',
    create_agent env_hub_down initial_state = (Ok agent, st') ∧
    tools agent =
      [ Tool_my_custom_tool; Tool_get_current_time_in_timezone;
        Tool_final_answer; Tool_visit_webpage ].
Proof.
  assert (wf_heap (st_heap initial_state)) as Hwf by exact wf_heap_initial.
  assert (assembles env_hub_down) as Ha by apply assembles_env_of.
  split; [exact Hwf|]. split; [exact Ha|].
  exact (C5_optional_tool env_hub_down initial_state Hwf Ha).
Defined.



(** ** After an earlier call

    The statements C1, C6 and C7 name the compiled-in defaults.  In a
    process that has already assembled an agent from an overriding
    document they fail, by the one-level copy of line 94 (see C2): the
    runs below start from the state such a call leaves. *)

(** C1.  A first assembly merges [final_answer: X]; a second one finds no
    [prompts.yaml].  The template set of the second agent is not the
    compiled-in [DEFAULT_PROMPTS]: its [final_answer.pre_messages] is
    [X]. *)
Theorem C1_no_document_after_an_override :
  ∃ a1 st1 a2 st2,
    create_agent (env_with_doc (YDict doc_final_answer_X)) initial_state = (Ok a1, st1) ∧
    no_document env_no_file ∧
    create_agent env_no_file st1 = (Ok a2, st2) ∧
    tree_at ["final_answer"; "pre_messages"]
      (templates_at (st_heap st2) (prompt_templates a2)) = Some (Leaf (YStr "X")) ∧
    tree_at ["final_answer"; "pre_messages"] DEFAULT_PROMPTS =
      Some (Leaf (YStr "Here is the final answer to your question:")) ∧
    templates_at (st_heap st2) (prompt_templates a2) ≠ DEFAULT_PROMPTS.
Proof.
  do 4 eexists.
  split; [vm_compute; reflexivity|].
  split; [left; eexists; reflexivity|].
  split; [vm_compute; reflexivity|].
  split; [vm_compute; reflexivity|].
  split; [reflexivity|].
  vm_compute. discriminate.
Qed.

(** C6.  A first assembly merges [final_answer: {post_messages: B}]; a
    second one merges the plain [final_answer: X].  The second agent has
    [pre_messages] [X], but its [post_messages] is [B], not the
    compiled-in default. *)
Theorem C6_plain_final_answer_after_an_override :
  ∃ a1 st1 a2 st2,
    create_agent (env_with_doc (YDict doc_post_messages_B)) initial_state = (Ok a1, st1) ∧
    assoc_str "final_answer" doc_final_answer_X = Some (YStr "X") ∧
    create_agent (env_with_doc (YDict doc_final_answer_X)) st1 = (Ok a2, st2) ∧
    tree_at ["final_answer"; "pre_messages"]
      (templates_at (st_heap st2) (prompt_templates a2)) = Some (Leaf (YStr "X")) ∧
    tree_at ["final_answer"; "post_messages"]
      (templates_at (st_heap st2) (prompt_templates a2)) = Some (Leaf (YStr "B")) ∧
    tree_at ["final_answer"; "post_messages"] DEFAULT_PROMPTS =
      Some (Leaf (YStr "Hope this helps!")).
Proof.
  do 4 eexists.
  split; [vm_compute; reflexivity|].
  split; [reflexivity|].
  split; [vm_compute; reflexivity|].
  split; [vm_compute; reflexivity|].
  split; [vm_compute; reflexivity|].
  reflexivity.
Qed.

(** C7.  A first assembly merges [final_answer: X]; a second one merges a
    document that sets [planning.initial_plan] only.  The second agent's
    set has the new [initial_plan], but it differs from the compiled-in
    defaults in [final_answer.pre_messages] as well. *)
Theorem C7_only_initial_plan_after_an_override :
  ∃ a1 st1 a2 st2,
    create_agent (env_with_doc (YDict doc_final_answer_X)) initial_state = (Ok a1, st1) ∧
    create_agent (env_with_doc (YDict doc_initial_plan)) st1 = (Ok a2, st2) ∧
    tree_at ["planning"; "initial_plan"]
      (templates_at (st_heap st2) (prompt_templates a2)) = Some (Leaf (YStr "P")) ∧
    tree_at ["final_answer"; "pre_messages"]
      (templates_at (st_heap st2) (prompt_templates a2)) = Some (Leaf (YStr "X")) ∧
    tree_at ["final_answer"; "pre_messages"] DEFAULT_PROMPTS =
      Some (Leaf (YStr "Here is the final answer to your question:")) ∧
    templates_at (st_heap st2) (prompt_templates a2) ≠
      tree_with "planning" "initial_plan" (Leaf (YStr "P")) DEFAULT_PROMPTS.
Proof.
  do 4 eexists.
  split; [vm_compute; reflexivity|].
  split; [vm_compute; reflexivity|].
  split; [vm_compute; reflexivity|].
  split; [vm_compute; reflexivity|].
  split; [reflexivity|].
  vm_compute. discriminate.
Qed.

(** * Further properties *)

(** ** Support *)

Lemma create_agent_loader env st fa pl :
  module_heap fa pl (st_heap st) → assembles env →
  ∃ agent st',
    create_agent env st = (Ok agent, st') ∧
    loader_heap (prompt_templates agent)
      (merged_system_prompt (override_of env))
      (merged_fa (override_of env) fa)
      (merged_pl (override_of env) pl) (st_heap st').
Proof.
  intros Hm Ha.
  destruct (wp_run _ _ _ (wp_create_agent env fa pl st Hm Ha))
    as (r & st' & Hrun & agent & -> & _ & Hh).
  by exists agent, st'.
Qed.

Lemma override_of_not_dict env doc :
  loads env doc → isinstance_dict doc = false → override_of env = None.
Proof.
  unfold override_of. intros (stream & -> & ->) Hd.
  destruct (truthy doc); [|done]. by destruct doc.
Qed.

Lemma tree_at_system_prompt sp fa pl :
  tree_at ["system_prompt"] (template_tree sp fa pl) = Some (Leaf sp).
Proof. reflexivity. Qed.

Lemma tree_at_final_answer_node sp fa pl :
  tree_at ["final_answer"] (template_tree sp fa pl) = Some (leaves fa).
Proof. reflexivity. Qed.

Lemma tree_at_planning_node sp fa pl :
  tree_at ["planning"] (template_tree sp fa pl) = Some (leaves pl).
Proof. reflexivity. Qed.

Lemma tree_get_kv_set_eq k v (d : list (string * pyval)) :
  tree_get k (map (λ kv, (kv.1, Leaf kv.2)) (kv_set k v d)) = Some (Leaf v).
Proof.
  induction d as [|[k' y] d IH]; cbn.
  - by rewrite String.eqb_refl.
  - destruct (String.eqb k' k) eqn:E; cbn; by rewrite E.
Qed.

Lemma tree_get_kv_set_ne k k' v (d : list (string * pyval)) :
  k ≠ k' →
  tree_get k' (map (λ kv, (kv.1, Leaf kv.2)) (kv_set k v d)) =
  tree_get k' (map (λ kv, (kv.1, Leaf kv.2)) d).
Proof.
  intros Hne. induction d as [|[k0 y] d IH]; cbn.
  - destruct (String.eqb_spec k k'); [done|done].
  - destruct (String.eqb_spec k0 k) as [->|Hk]; cbn.
    + by destruct (String.eqb_spec k k').
    + destruct (String.eqb_spec k0 k'); [done|apply IH].
Qed.

Lemma tree_get_pick k k' sub (d : list (string * pyval)) :
  tree_get k' (map (λ kv, (kv.1, Leaf kv.2)) (pick k sub d)) =
  if decide (k = k') then
    match assoc_str k sub with
    | Some v => Some (Leaf v)
    | None => tree_get k' (map (λ kv, (kv.1, Leaf kv.2)) d)
    end
  else tree_get k' (map (λ kv, (kv.1, Leaf kv.2)) d).
Proof.
  unfold pick. destruct (decide (k = k')) as [->|Hne].
  - destruct (assoc_str k' sub); [apply tree_get_kv_set_eq|done].
  - destruct (assoc_str k sub); [by apply tree_get_kv_set_ne|done].
Qed.

Lemma tree_get_fold_pick k' sub keys : ∀ d : list (string * pyval),
  tree_get k' (map (λ kv, (kv.1, Leaf kv.2))
                 (fold_left (λ acc k, pick k sub acc) keys d)) =
  if decide (k' ∈ keys) then
    match assoc_str k' sub with
    | Some v => Some (Leaf v)
    | None => tree_get k' (map (λ kv, (kv.1, Leaf kv.2)) d)
    end
  else tree_get k' (map (λ kv, (kv.1, Leaf kv.2)) d).
Proof.
  induction keys as [|k keys IH]; intros d; cbn [fold_left].
  - by rewrite decide_False by apply not_elem_of_nil.
  - rewrite IH, tree_get_pick.
    destruct (decide (k = k')) as [->|Hne].
    + rewrite (decide_True (P := k' ∈ k' :: keys)) by apply list_elem_of_here.
      destruct (decide (k' ∈ keys)); by destruct (assoc_str k' sub).
    + destruct (decide (k' ∈ keys)) as [Hin|Hnin].
      * by rewrite decide_True by (by apply list_elem_of_further).
      * rewrite decide_False; [done|].
        intros [?|?]%elem_of_cons; congruence.
Qed.

(** ** The template set, whatever the document *)

(** X1.  Whatever [prompts.yaml] holds, also content on which the merge
    raises, the template set handed to the agent has the keys of
    [DEFAULT_PROMPTS] and no others: [system_prompt], the two of
    [final_answer], the six of [planning], and the compiled-in
    [managed_agent]. *)
Theorem X1_template_set_keeps_its_keys env st :
  wf_heap (st_heap st) → assembles env →
  ∃ agent st' sp a b p1 p2 p3 p4 p5 p6,
    create_agent env st = (Ok agent, st') ∧
    templates_at (st_heap st') (prompt_templates agent) =
      template_tree sp
        [ ("pre_messages", a); ("post_messages", b) ]
        [ ("initial_facts", p1); ("initial_plan", p2);
          ("update_facts_pre_messages", p3); ("update_facts_post_messages", p4);
          ("update_plan_pre_messages", p5); ("update_plan_post_messages", p6) ].
Proof.
  intros (fa & pl & Hfa & Hpl & Hm) Ha.
  destruct (create_agent_templates env st fa pl Hm Ha)
    as (agent & st' & Hrun & _ & Ht & _).
  destruct (final_answer_shape _ (merged_fa_keys (override_of env) fa Hfa))
    as (a & b & Ea).
  assert (map fst (merged_pl (override_of env) pl) = map fst default_planning)
    as Hkeys by (by rewrite merged_pl_keys).
  destruct (planning_shape _ Hkeys) as (p1 & p2 & p3 & p4 & p5 & p6 & Ep).
  exists agent, st', (merged_system_prompt (override_of env)),
    a, b, p1, p2, p3, p4, p5, p6.
  split; [done|]. by rewrite Ht, Ea, Ep.
Qed.

Lemma X1_witness :
  wf_heap (st_heap initial_state) ∧
  assembles (env_with_doc (YList [YStr "system_prompt"])) ∧
  ∃ agent st' sp a b p1 p2 p3 p4 p5 p6,
    create_agent (env_with_doc (YList [YStr "system_prompt"])) initial_state =
      (Ok agent, st') ∧
    templates_at (st_heap st') (prompt_templates agent) =
      template_tree sp
        [ ("pre_messages", a); ("post_messages", b) ]
        [ ("initial_facts", p1); ("initial_plan", p2);
          ("update_facts_pre_messages", p3); ("update_facts_post_messages", p4);
          ("update_plan_pre_messages", p5); ("update_plan_post_messages", p6) ].
Proof.
  assert (wf_heap (st_heap initial_state)) as Hwf by exact wf_heap_initial.
  assert (assembles (env_with_doc (YList [YStr "system_prompt"]))) as Ha
    by apply assembles_env_of.
  split; [exact Hwf|]. split; [exact Ha|].
  exact (X1_template_set_keeps_its_keys _ initial_state Hwf Ha).
Defined.

(** X2.  A [system_prompt] entry of the document replaces the system
    prompt wholesale, whatever kind of value it is; the [system_prompt]
    of [DEFAULT_PROMPTS] itself stays the compiled-in text. *)
Theorem X2_system_prompt_replaced_in_copy_only env st kvs v :
  wf_heap (st_heap st) → assembles env → loads env (YDict kvs) →
  assoc_str "system_prompt" kvs = Some v →
  ∃ agent st',
    create_agent env st = (Ok agent, st') ∧
    tree_at ["system_prompt"]
      (templates_at (st_heap st') (prompt_templates agent)) = Some (Leaf v) ∧
    tree_at ["system_prompt"]
      (templates_at (st_heap st') DEFAULT_PROMPTS_loc) =
      Some (Leaf default_system_prompt).
Proof.
  intros (fa & pl & Hfa & Hpl & Hm) Ha Hl Hv.
  destruct (create_agent_templates env st fa pl Hm Ha)
    as (agent & st' & Hrun & _ & Ht & Hd).
  rewrite (loads_override _ _ _ _ Hl Hv) in Ht.
  cbn [merged_system_prompt] in Ht. rewrite Hv in Ht.
  exists agent, st'. split; [done|].
  by rewrite Ht, Hd, !tree_at_system_prompt.
Qed.

Lemma X2_witness :
  wf_heap (st_heap initial_state) ∧
  assembles (env_with_doc (YDict doc_system_prompt_42)) ∧
  loads (env_with_doc (YDict doc_system_prompt_42)) (YDict doc_system_prompt_42) ∧
  assoc_str "system_prompt" doc_system_prompt_42 = Some (YInt 42) ∧
  ∃ agent st',
    create_agent (env_with_doc (YDict doc_system_prompt_42)) initial_state =
      (Ok agent, st') ∧
    tree_at ["system_prompt"]
      (templates_at (st_heap st') (prompt_templates agent)) =
      Some (Leaf (YInt 42)) ∧
    tree_at ["system_prompt"]
      (templates_at (st_heap st') DEFAULT_PROMPTS_loc) =
      Some (Leaf default_system_prompt).
Proof.
  assert (wf_heap (st_heap initial_state)) as Hwf by exact wf_heap_initial.
  assert (assembles (env_with_doc (YDict doc_system_prompt_42))) as Ha
    by apply assembles_env_of.
  assert (loads (env_with_doc (YDict doc_system_prompt_42))
            (YDict doc_system_prompt_42)) as Hl
    by (eexists; split; reflexivity).
  repeat (split; [first [exact Hwf | exact Ha | exact Hl | reflexivity]|]).
  exact (X2_system_prompt_replaced_in_copy_only _ initial_state
           doc_system_prompt_42 (YInt 42) Hwf Ha Hl eq_refl).
Defined.

(** X3.  A [final_answer] entry that is a mapping sets [pre_messages]
    and [post_messages] one by one: each takes the document's value when
    the mapping has that key and keeps the value [DEFAULT_PROMPTS] held on
    entry when it has not; other keys of the mapping are dropped. *)
Theorem X3_final_answer_mapping_key_by_key env st kvs sub :
  wf_heap (st_heap st) → assembles env → loads env (YDict kvs) →
  assoc_str "final_answer" kvs = Some (YDict sub) →
  ∃ agent st',
    create_agent env st = (Ok agent, st') ∧
    (∀ k, k = "pre_messages" ∨ k = "post_messages" →
       tree_at ["final_answer"; k]
         (templates_at (st_heap st') (prompt_templates agent)) =
       match assoc_str k sub with
       | Some v => Some (Leaf v)
       | None =>
           tree_at ["final_answer"; k]
             (templates_at (st_heap st) DEFAULT_PROMPTS_loc)
       end) ∧
    (∀ k, k ≠ "pre_messages" → k ≠ "post_messages" →
       tree_at ["final_answer"; k]
         (templates_at (st_heap st') (prompt_templates agent)) = None).
Proof.
  intros (fa & pl & Hfa & Hpl & Hm) Ha Hl Hsub.
  destruct (create_agent_templates env st fa pl Hm Ha)
    as (agent & st' & Hrun & _ & Ht & _).
  rewrite (loads_override _ _ _ _ Hl Hsub) in Ht.
  cbn [merged_fa] in Ht. unfold merged_final_answer in Ht. rewrite Hsub in Ht.
  exists agent, st'. split; [done|].
  rewrite Ht, (templates_at_module _ _ _ Hm). split.
  - intros k Hk. rewrite !tree_at_final_answer, !tree_get_pick.
    destruct Hk as [->| ->].
    + rewrite decide_False by done. by rewrite decide_True by done.
    + by rewrite decide_True by done.
  - intros k Hpre Hpost. rewrite tree_at_final_answer, !tree_get_pick.
    rewrite !decide_False by done. apply tree_get_None.
    rewrite map_map. cbn [fst]. change (k ∉ map fst fa). rewrite Hfa. cbn.
    intros Hin. repeat (apply elem_of_cons in Hin as [Hin|Hin]; [done|]).
    by apply elem_of_nil in Hin.
Qed.

Lemma X3_witness :
  wf_heap (st_heap initial_state) ∧
  assembles (env_with_doc (YDict doc_final_answer_map)) ∧
  loads (env_with_doc (YDict doc_final_answer_map)) (YDict doc_final_answer_map) ∧
  assoc_str "final_answer" doc_final_answer_map = Some (YDict sub_post_only) ∧
  ∃ agent st',
    create_agent (env_with_doc (YDict doc_final_answer_map)) initial_state =
      (Ok agent, st') ∧
    tree_at ["final_answer"; "pre_messages"]
      (templates_at (st_heap st') (prompt_templates agent)) =
      Some (Leaf (YStr "Here is the final answer to your question:")) ∧
    tree_at ["final_answer"; "post_messages"]
      (templates_at (st_heap st') (prompt_templates agent)) =
      Some (Leaf (YStr "B")) ∧
    tree_at ["final_answer"; "extra"]
      (templates_at (st_heap st') (prompt_templates agent)) = None.
Proof.
  assert (wf_heap (st_heap initial_state)) as Hwf by exact wf_heap_initial.
  assert (assembles (env_with_doc (YDict doc_final_answer_map))) as Ha
    by apply assembles_env_of.
  assert (loads (env_with_doc (YDict doc_final_answer_map))
            (YDict doc_final_answer_map)) as Hl
    by (eexists; split; reflexivity).
  repeat (split; [first [exact Hwf | exact Ha | exact Hl | reflexivity]|]).
  destruct (X3_final_answer_mapping_key_by_key _ initial_state
              doc_final_answer_map sub_post_only Hwf Ha Hl eq_refl)
    as (agent & st' & Hrun & Hknown & Hother).
  exists agent, st'. split; [exact Hrun|].
  split; [exact (Hknown "pre_messages" (or_introl eq_refl))|].
  split; [exact (Hknown "post_messages" (or_intror eq_refl))|].
  apply Hother; discriminate.
Defined.

(** X4.  A [planning] entry that is a mapping is merged key by key over
    the six known keys: each takes the document's value when the mapping
    has that key and keeps the value [DEFAULT_PROMPTS] held on entry when
    it has not. *)
Theorem X4_planning_mapping_key_by_key env st kvs sub :
  wf_heap (st_heap st) → assembles env → loads env (YDict kvs) →
  assoc_str "planning" kvs = Some (YDict sub) →
  ∃ agent st',
    create_agent env st = (Ok agent, st') ∧
    ∀ k, k ∈ map fst default_planning →
      tree_at ["planning"; k]
        (templates_at (st_heap st') (prompt_templates agent)) =
      match assoc_str k sub with
      | Some v => Some (Leaf v)
      | None =>
          tree_at ["planning"; k]
            (templates_at (st_heap st) DEFAULT_PROMPTS_loc)
      end.
Proof.
  intros (fa & pl & Hfa & Hpl & Hm) Ha Hl Hsub.
  destruct (create_agent_templates env st fa pl Hm Ha)
    as (agent & st' & Hrun & _ & Ht & _).
  rewrite (loads_override _ _ _ _ Hl Hsub) in Ht.
  cbn [merged_pl] in Ht. unfold merged_planning in Ht. rewrite Hsub in Ht.
  exists agent, st'. split; [done|]. intros k Hk.
  rewrite Ht, (templates_at_module _ _ _ Hm), !tree_at_planning.
  rewrite tree_get_fold_pick, Hpl. by rewrite decide_True by done.
Qed.

Lemma X4_witness :
  wf_heap (st_heap initial_state) ∧
  assembles (env_with_doc (YDict doc_initial_plan)) ∧
  loads (env_with_doc (YDict doc_initial_plan)) (YDict doc_initial_plan) ∧
  assoc_str "planning" doc_initial_plan = Some (YDict sub_initial_plan) ∧
  "update_plan_pre_messages" ∈ map fst default_planning ∧
  ∃ agent st',
    create_agent (env_with_doc (YDict doc_initial_plan)) initial_state =
      (Ok agent, st') ∧
    tree_at ["planning"; "update_plan_pre_messages"]
      (templates_at (st_heap st') (prompt_templates agent)) =
      Some (Leaf (YStr "Let's review our plan based on what we've learned.")).
Proof.
  assert (wf_heap (st_heap initial_state)) as Hwf by exact wf_heap_initial.
  assert (assembles (env_with_doc (YDict doc_initial_plan))) as Ha
    by apply assembles_env_of.
  assert (loads (env_with_doc (YDict doc_initial_plan)) (YDict doc_initial_plan))
    as Hl by (eexists; split; reflexivity).
  assert ("update_plan_pre_messages" ∈ map fst default_planning) as Hk
    by (cbn; do 4 apply list_elem_of_further; apply list_elem_of_here).
  repeat (split; [first [exact Hwf | exact Ha | exact Hl | exact Hk
                        | reflexivity]|]).
  destruct (X4_planning_mapping_key_by_key _ initial_state doc_initial_plan
              sub_initial_plan Hwf Ha Hl eq_refl)
    as (agent & st' & Hrun & Hkeys).
  exists agent, st'. split; [exact Hrun|]. exact (Hkeys _ Hk).
Defined.

(** X5.  A [planning] entry that is not a mapping is passed over: the
    planning section keeps what [DEFAULT_PROMPTS] held on entry, and
    assembly goes on. *)
Theorem X5_planning_not_a_mapping_is_ignored env st kvs x :
  wf_heap (st_heap st) → assembles env → loads env (YDict kvs) →
  assoc_str "planning" kvs = Some x → isinstance_dict x = false →
  ∃ agent st',
    create_agent env st = (Ok agent, st') ∧
    tree_at ["planning"]
      (templates_at (st_heap st') (prompt_templates agent)) =
    tree_at ["planning"] (templates_at (st_heap st) DEFAULT_PROMPTS_loc).
Proof.
  intros (fa & pl & Hfa & Hpl & Hm) Ha Hl Hx Hplain.
  destruct (create_agent_templates env st fa pl Hm Ha)
    as (agent & st' & Hrun & _ & Ht & _).
  rewrite (loads_override _ _ _ _ Hl Hx) in Ht.
  cbn [merged_pl] in Ht. unfold merged_planning in Ht. rewrite Hx in Ht.
  exists agent, st'. split; [done|].
  rewrite Ht, (templates_at_module _ _ _ Hm), !tree_at_planning_node.
  by destruct x.
Qed.

Lemma X5_witness :
  wf_heap (st_heap initial_state) ∧
  assembles (env_with_doc (YDict doc_planning_text)) ∧
  loads (env_with_doc (YDict doc_planning_text)) (YDict doc_planning_text) ∧
  assoc_str "planning" doc_planning_text = Some (YStr "think first") ∧
  isinstance_dict (YStr "think first") = false ∧
  ∃ agent st',
    create_agent (env_with_doc (YDict doc_planning_text)) initial_state =
      (Ok agent, st') ∧
    tree_at ["planning"]
      (templates_at (st_heap st') (prompt_templates agent)) =
    tree_at ["planning"]
      (templates_at (st_heap initial_state) DEFAULT_PROMPTS_loc).
Proof.
  assert (wf_heap (st_heap initial_state)) as Hwf by exact wf_heap_initial.
  assert (assembles (env_with_doc (YDict doc_planning_text))) as Ha
    by apply assembles_env_of.
  assert (loads (env_with_doc (YDict doc_planning_text)) (YDict doc_planning_text))
    as Hl by (eexists; split; reflexivity).
  repeat (split; [first [exact Hwf | exact Ha | exact Hl | reflexivity]|]).
  exact (X5_planning_not_a_mapping_is_ignored _ initial_state doc_planning_text
           (YStr "think first") Hwf Ha Hl eq_refl eq_refl).
Defined.

(** X6.  A document that parses to something other than a mapping (a
    list, a string, a number) is no override: whether the merge skips it
    or raises on it, the agent is assembled with what [DEFAULT_PROMPTS]
    held on entry. *)
Theorem X6_not_a_mapping_is_no_override env st doc :
  wf_heap (st_heap st) → assembles env → loads env doc →
  isinstance_dict doc = false →
  ∃ agent st',
    create_agent env st = (Ok agent, st') ∧
    templates_at (st_heap st') (prompt_templates agent) =
      templates_at (st_heap st) DEFAULT_PROMPTS_loc.
Proof.
  intros (fa & pl & Hfa & Hpl & Hm) Ha Hl Hd.
  destruct (create_agent_templates env st fa pl Hm Ha)
    as (agent & st' & Hrun & _ & Ht & _).
  rewrite (override_of_not_dict env doc Hl Hd) in Ht.
  exists agent, st'. split; [done|].
  by rewrite Ht, (templates_at_module _ _ _ Hm).
Qed.

Lemma X6_witness :
  wf_heap (st_heap initial_state) ∧
  assembles (env_with_doc (YStr "system_prompt")) ∧
  loads (env_with_doc (YStr "system_prompt")) (YStr "system_prompt") ∧
  isinstance_dict (YStr "system_prompt") = false ∧
  ∃ agent st',
    create_agent (env_with_doc (YStr "system_prompt")) initial_state =
      (Ok agent, st') ∧
    templates_at (st_heap st') (prompt_templates agent) =
      templates_at (st_heap initial_state) DEFAULT_PROMPTS_loc.
Proof.
  assert (wf_heap (st_heap initial_state)) as Hwf by exact wf_heap_initial.
  assert (assembles (env_with_doc (YStr "system_prompt"))) as Ha
    by apply assembles_env_of.
  assert (loads (env_with_doc (YStr "system_prompt")) (YStr "system_prompt"))
    as Hl by (eexists; split; reflexivity).
  repeat (split; [first [exact Hwf | exact Ha | exact Hl | reflexivity]|]).
  exact (X6_not_a_mapping_is_no_override _ initial_state (YStr "system_prompt")
           Hwf Ha Hl eq_refl).
Defined.

(** ** One call after another *)

Lemma merged_fa_idem o (fa : list (string * pyval)) :
  map fst fa = map fst default_final_answer →
  merged_fa o (merged_fa o fa) = merged_fa o fa.
Proof.
  intros Hfa. destruct (final_answer_shape fa Hfa) as (a & b & ->).
  destruct o as [kvs|]; [|done]. cbn [merged_fa]. unfold merged_final_answer.
  destruct (assoc_str "final_answer" kvs) as [x|]; [|done].
  destruct x as [| | | | | | | | | |sub]; try reflexivity.
  unfold pick.
  destruct (assoc_str "pre_messages" sub), (assoc_str "post_messages" sub);
    reflexivity.
Qed.

Lemma kv_set_map k v (d : list (string * pyval)) :
  NoDup (map fst d) → k ∈ map fst d →
  kv_set k v d = map (λ kv, if String.eqb kv.1 k then (kv.1, v) else kv) d.
Proof.
  induction d as [|[k' y] d IH]; cbn [map fst kv_set]; intros Hnd Hin.
  - by apply elem_of_nil in Hin.
  - apply NoDup_cons in Hnd as [Hk' Hnd]. cbn [fst].
    destruct (String.eqb_spec k' k) as [->|Hne].
    + f_equal. rewrite <- (map_id d) at 1. apply map_ext_in.
      intros [k0 y0] Hin0. cbn [fst].
      destruct (String.eqb_spec k0 k) as [->|]; [|done].
      exfalso. apply Hk'. apply list_elem_of_In in Hin0.
      by apply (list_elem_of_fmap_2 fst _ (k, y0)).
    + f_equal. apply IH; [done|].
      apply elem_of_cons in Hin as [->|Hin]; [congruence|done].
Qed.

Lemma pick_map k sub (d : list (string * pyval)) :
  NoDup (map fst d) → k ∈ map fst d →
  pick k sub d = map (λ kv, if String.eqb kv.1 k then overlay sub kv else kv) d.
Proof.
  intros Hnd Hin. unfold pick, overlay.
  destruct (assoc_str k sub) as [v|] eqn:E.
  - rewrite kv_set_map by done. apply map_ext. intros [k0 y0]. cbn [fst snd].
    destruct (String.eqb_spec k0 k) as [->|]; [by rewrite E|done].
  - rewrite <- (map_id d) at 1. apply map_ext. intros [k0 y0]. cbn [fst snd].
    destruct (String.eqb_spec k0 k) as [->|]; [by rewrite E|done].
Qed.

Lemma overlay_idem sub kv : overlay sub (overlay sub kv) = overlay sub kv.
Proof. unfold overlay. cbn [fst snd]. by destruct (assoc_str kv.1 sub). Qed.

Lemma map_fst_overlay sub (d : list (string * pyval)) :
  map fst (map (overlay sub) d) = map fst d.
Proof. rewrite map_map. by apply map_ext. Qed.

(** The loop over the keys [ks] of a dict overlays exactly the entries
    under those keys. *)
Lemma fold_pick_map sub ks : ∀ d : list (string * pyval),
  NoDup (map fst d) → ks ⊆ map fst d →
  fold_left (λ acc k, pick k sub acc) ks d =
  map (λ kv, if decide (kv.1 ∈ ks) then overlay sub kv else kv) d.
Proof.
  induction ks as [|k ks IH]; intros d Hnd Hsub; cbn [fold_left].
  - rewrite <- (map_id d) at 1. apply map_ext. intros kv.
    by rewrite decide_False by apply not_elem_of_nil.
  - assert (k ∈ map fst d) as Hk by (apply Hsub; by left).
    assert (map fst (pick k sub d) = map fst d) as Hkeys by (by apply pick_keys).
    rewrite IH.
    2: { by rewrite Hkeys. }
    2: { rewrite Hkeys. intros x Hx. apply Hsub. by right. }
    rewrite pick_map by done. rewrite map_map. apply map_ext. intros [k0 y0].
    cbn [fst]. destruct (String.eqb_spec k0 k) as [->|Hne].
    + rewrite (decide_True (P := k ∈ k :: ks)) by apply list_elem_of_here.
      cbn [overlay fst]. destruct (decide (k ∈ ks)); [apply overlay_idem|done].
    + cbn [fst]. destruct (decide (k0 ∈ ks)) as [Hin|Hnin].
      * by rewrite decide_True by (by apply list_elem_of_further).
      * rewrite decide_False; [done|].
        intros [?|?]%elem_of_cons; congruence.
Qed.

Lemma fold_pick_all sub (d : list (string * pyval)) :
  NoDup (map fst d) →
  fold_left (λ acc k, pick k sub acc) (map fst d) d = map (overlay sub) d.
Proof.
  intros Hnd. rewrite fold_pick_map by done. apply map_ext_in.
  intros kv Hin. rewrite decide_True; [done|].
  apply list_elem_of_In in Hin. by apply (list_elem_of_fmap_2 fst).
Qed.

Lemma NoDup_planning_keys : NoDup (map fst default_planning).
Proof. apply (bool_decide_unpack _). by vm_compute. Qed.

Lemma merged_pl_idem o (pl : list (string * pyval)) :
  map fst pl = map fst default_planning →
  merged_pl o (merged_pl o pl) = merged_pl o pl.
Proof.
  intros Hpl. destruct o as [kvs|]; [|done]. cbn [merged_pl]. unfold merged_planning.
  destruct (assoc_str "planning" kvs) as [x|]; [|done].
  destruct x as [| | | | | | | | | |sub]; try reflexivity.
  assert (NoDup (map fst pl)) as Hnd by (rewrite Hpl; apply NoDup_planning_keys).
  rewrite (fold_pick_all sub pl Hnd).
  rewrite fold_pick_all by (by rewrite map_fst_overlay).
  rewrite map_map. apply map_ext. intros kv. apply overlay_idem.
Qed.

(** X7.  What one call merges into [final_answer] and [planning] stays
    for the next: a later call that finds no document hands out the
    earlier call's [final_answer] and [planning] sections, not the
    compiled-in ones; only [system_prompt] is back at its default. *)
Theorem X7_nested_overrides_persist env1 env2 st :
  wf_heap (st_heap st) → assembles env1 → assembles env2 → no_document env2 →
  ∃ a1 st1 a2 st2,
    create_agent env1 st = (Ok a1, st1) ∧
    create_agent env2 st1 = (Ok a2, st2) ∧
    tree_at ["final_answer"] (templates_at (st_heap st2) (prompt_templates a2)) =
      tree_at ["final_answer"] (templates_at (st_heap st1) (prompt_templates a1)) ∧
    tree_at ["planning"] (templates_at (st_heap st2) (prompt_templates a2)) =
      tree_at ["planning"] (templates_at (st_heap st1) (prompt_templates a1)) ∧
    tree_at ["system_prompt"] (templates_at (st_heap st2) (prompt_templates a2)) =
      Some (Leaf default_system_prompt).
Proof.
  intros (fa & pl & Hfa & Hpl & Hm) Ha1 Ha2 Hno.
  destruct (create_agent_loader env1 st fa pl Hm Ha1) as (a1 & st1 & Hrun1 & Hh1).
  pose proof (templates_at_loader _ _ _ _ _ Hh1) as Ht1.
  destruct Hh1 as (Hm1 & _).
  destruct (create_agent_templates env2 st1 _ _ Hm1 Ha2)
    as (a2 & st2 & Hrun2 & _ & Ht2 & _).
  rewrite (override_of_none env2 Hno) in Ht2.
  cbn [merged_system_prompt merged_fa merged_pl] in Ht2.
  exists a1, st1, a2, st2. split; [done|]. split; [done|].
  by rewrite Ht1, Ht2.
Qed.

Lemma X7_witness :
  wf_heap (st_heap initial_state) ∧
  assembles (env_with_doc (YDict doc_all_sections)) ∧
  assembles env_no_file ∧ no_document env_no_file ∧
  ∃ a1 st1 a2 st2,
    create_agent (env_with_doc (YDict doc_all_sections)) initial_state = (Ok a1, st1) ∧
    create_agent env_no_file st1 = (Ok a2, st2) ∧
    tree_at ["final_answer"] (templates_at (st_heap st2) (prompt_templates a2)) =
      tree_at ["final_answer"] (templates_at (st_heap st1) (prompt_templates a1)) ∧
    tree_at ["planning"] (templates_at (st_heap st2) (prompt_templates a2)) =
      tree_at ["planning"] (templates_at (st_heap st1) (prompt_templates a1)) ∧
    tree_at ["system_prompt"] (templates_at (st_heap st2) (prompt_templates a2)) =
      Some (Leaf default_system_prompt).
Proof.
  assert (wf_heap (st_heap initial_state)) as Hwf by exact wf_heap_initial.
  assert (assembles (env_with_doc (YDict doc_all_sections))) as Ha1
    by apply assembles_env_of.
  assert (assembles env_no_file) as Ha2 by apply assembles_env_of.
  assert (no_document env_no_file) as Hno by (left; eexists; reflexivity).
  repeat (split; [first [exact Hwf | exact Ha1 | exact Ha2 | exact Hno]|]).
  exact (X7_nested_overrides_persist _ _ initial_state Hwf Ha1 Ha2 Hno).
Defined.

(** X8.  Assembling twice from the same [prompts.yaml] hands out the same
    template set twice: merging a document into what it has already been
    merged into changes nothing. *)
Theorem X8_same_document_same_templates env st :
  wf_heap (st_heap st) → assembles env →
  ∃ a1 st1 a2 st2,
    create_agent env st = (Ok a1, st1) ∧
    create_agent env st1 = (Ok a2, st2) ∧
    templates_at (st_heap st2) (prompt_templates a2) =
      templates_at (st_heap st1) (prompt_templates a1).
Proof.
  intros (fa & pl & Hfa & Hpl & Hm) Ha.
  destruct (create_agent_loader env st fa pl Hm Ha) as (a1 & st1 & Hrun1 & Hh1).
  pose proof (templates_at_loader _ _ _ _ _ Hh1) as Ht1.
  destruct Hh1 as (Hm1 & _).
  destruct (create_agent_templates env st1 _ _ Hm1 Ha)
    as (a2 & st2 & Hrun2 & _ & Ht2 & _).
  exists a1, st1, a2, st2. split; [done|]. split; [done|].
  by rewrite Ht1, Ht2, merged_fa_idem, merged_pl_idem.
Qed.

Lemma X8_witness :
  wf_heap (st_heap initial_state) ∧
  assembles (env_with_doc (YDict doc_all_sections)) ∧
  ∃ a1 st1 a2 st2,
    create_agent (env_with_doc (YDict doc_all_sections)) initial_state = (Ok a1, st1) ∧
    create_agent (env_with_doc (YDict doc_all_sections)) st1 = (Ok a2, st2) ∧
    templates_at (st_heap st2) (prompt_templates a2) =
      templates_at (st_heap st1) (prompt_templates a1).
Proof.
  assert (wf_heap (st_heap initial_state)) as Hwf by exact wf_heap_initial.
  assert (assembles (env_with_doc (YDict doc_all_sections))) as Ha
    by apply assembles_env_of.
  split; [exact Hwf|]. split; [exact Ha|].
  exact (X8_same_document_same_templates _ initial_state Hwf Ha).
Defined.

(** X9.  However often agents are assembled, and from whatever
    documents, [DEFAULT_PROMPTS] keeps its keys, its compiled-in
    [system_prompt] and its compiled-in [managed_agent] section; only the
    values under [final_answer] and [planning] ever change. *)
Theorem X9_constant_keeps_keys_and_system_prompt st :
  reachable st →
  ∃ a b p1 p2 p3 p4 p5 p6,
    templates_at (st_heap st) DEFAULT_PROMPTS_loc =
      template_tree default_system_prompt
        [ ("pre_messages", a); ("post_messages", b) ]
        [ ("initial_facts", p1); ("initial_plan", p2);
          ("update_facts_pre_messages", p3); ("update_facts_post_messages", p4);
          ("update_plan_pre_messages", p5); ("update_plan_post_messages", p6) ].
Proof.
  intros Hr. destruct (reachable_wf st Hr) as (fa & pl & Hfa & Hpl & Hm).
  destruct (final_answer_shape fa Hfa) as (a & b & ->).
  destruct (planning_shape pl Hpl) as (p1 & p2 & p3 & p4 & p5 & p6 & ->).
  exists a, b, p1, p2, p3, p4, p5, p6. by apply templates_at_module.
Qed.

Lemma X9_witness :
  reachable (create_agent (env_with_doc (YDict doc_all_sections)) initial_state).2 ∧
  ∃ a b p1 p2 p3 p4 p5 p6,
    templates_at
      (st_heap (create_agent (env_with_doc (YDict doc_all_sections)) initial_state).2)
      DEFAULT_PROMPTS_loc =
      template_tree default_system_prompt
        [ ("pre_messages", a); ("post_messages", b) ]
        [ ("initial_facts", p1); ("initial_plan", p2);
          ("update_facts_pre_messages", p3); ("update_facts_post_messages", p4);
          ("update_plan_pre_messages", p5); ("update_plan_post_messages", p6) ].
Proof.
  assert (reachable
            (create_agent (env_with_doc (YDict doc_all_sections)) initial_state).2)
    as Hr by (apply reachable_create_agent, reachable_initial).
  split; [exact Hr|].
  exact (X9_constant_keeps_keys_and_system_prompt _ Hr).
Defined.

(** ** What a call leaves alone

    The lemmas of the merge once more, now keeping track of the rest of
    the store: a call writes to its own copy and to the two nested dicts,
    and nowhere else. *)

Lemma wp_and {A} (m : M A) st (Q1 Q2 : result A → state → Prop) :
  wp m st Q1 → wp m st Q2 → wp m st (λ r st', Q1 r st' ∧ Q2 r st').
Proof. unfold wp. auto. Qed.

Lemma merged_framed h0 pt sp fa pl tr r st' :
  merged tr (loader_heap pt sp fa pl) r st' ∧ agree_outside pt h0 (st_heap st') →
  merged tr (framed_heap h0 pt sp fa pl) r st'.
Proof. by intros [(-> & Htr & Hh) Hfr]. Qed.

Lemma agree_outside_insert pt h0 h l d :
  agree_outside pt h0 h →
  l = pt ∨ l = final_answer_loc ∨ l = planning_loc →
  agree_outside pt h0 (<[l := d]> h).
Proof.
  intros Hfr Hl l' H1 H2 H3. rewrite lookup_insert_ne; [by apply Hfr|].
  destruct Hl as [->|[->| ->]]; congruence.
Qed.

Section framed_steps.
Context (h0 : heap) (pt : loc).

Lemma wp_set_system_prompt_fr sp fa pl v st :
  framed_heap h0 pt sp fa pl (st_heap st) →
  wp (obj_setitem (Ref pt) "system_prompt" (Val v)) st
     (merged (st_trace st) (framed_heap h0 pt v fa pl)).
Proof.
  intros [Hh Hfr].
  pose proof (wp_set_system_prompt pt sp fa pl v st Hh) as Hstep.
  assert (wp (obj_setitem (Ref pt) "system_prompt" (Val v)) st
            (λ _ st', agree_outside pt h0 (st_heap st'))) as Hrest.
  { destruct Hh as (_ & Hpt & _).
    eapply wp_obj_setitem_ref; [done|]. cbn [st_heap].
    apply agree_outside_insert; auto. }
  eapply wp_conseq; [exact (wp_and _ _ _ _ Hstep Hrest)|].
  intros r st' H. by apply merged_framed.
Qed.

Lemma wp_set_final_answer_fr sp fa pl k v st :
  framed_heap h0 pt sp fa pl (st_heap st) →
  wp (target <- obj_getitem (Ref pt) "final_answer";;
      obj_setitem target k (Val v)) st
     (merged (st_trace st) (framed_heap h0 pt sp (kv_set k v fa) pl)).
Proof.
  intros [Hh Hfr].
  pose proof (wp_set_final_answer pt sp fa pl k v st Hh) as Hstep.
  assert (wp (target <- obj_getitem (Ref pt) "final_answer";;
              obj_setitem target k (Val v)) st
            (λ _ st', agree_outside pt h0 (st_heap st'))) as Hrest.
  { destruct Hh as ((_ & Hfa & _) & Hpt & _).
    apply wp_bind. eapply wp_obj_getitem_ref; [done..|].
    eapply wp_obj_setitem_ref; [done|]. cbn [st_heap].
    apply agree_outside_insert; auto. }
  eapply wp_conseq; [exact (wp_and _ _ _ _ Hstep Hrest)|].
  intros r st' H. by apply merged_framed.
Qed.

Lemma wp_set_planning_fr sp fa pl k v st :
  framed_heap h0 pt sp fa pl (st_heap st) →
  wp (target <- obj_getitem (Ref pt) "planning";;
      obj_setitem target k (Val v)) st
     (merged (st_trace st) (framed_heap h0 pt sp fa (kv_set k v pl))).
Proof.
  intros [Hh Hfr].
  pose proof (wp_set_planning pt sp fa pl k v st Hh) as Hstep.
  assert (wp (target <- obj_getitem (Ref pt) "planning";;
              obj_setitem target k (Val v)) st
            (λ _ st', agree_outside pt h0 (st_heap st'))) as Hrest.
  { destruct Hh as ((_ & _ & Hpl & _) & Hpt & _).
    apply wp_bind. eapply wp_obj_getitem_ref; [done..|].
    eapply wp_obj_setitem_ref; [done|]. cbn [st_heap].
    apply agree_outside_insert; auto. }
  eapply wp_conseq; [exact (wp_and _ _ _ _ Hstep Hrest)|].
  intros r st' H. by apply merged_framed.
Qed.

Lemma wp_merge_system_prompt_dict_fr sp fa pl kvs st :
  framed_heap h0 pt sp fa pl (st_heap st) →
  wp (merge_system_prompt pt (YDict kvs)) st
     (merged (st_trace st)
        (framed_heap h0 pt (default sp (assoc_str "system_prompt" kvs)) fa pl)).
Proof.
  intros Hh. unfold merge_system_prompt.
  destruct (assoc_str "system_prompt" kvs) as [v|] eqn:E; wp_pure.
  - by eapply wp_set_system_prompt_fr.
  - merged_done.
Qed.

Lemma wp_merge_final_answer_dict_fr sp fa pl kvs st :
  framed_heap h0 pt sp fa pl (st_heap st) →
  wp (merge_final_answer pt (YDict kvs)) st
     (merged (st_trace st)
        (framed_heap h0 pt sp (merged_final_answer kvs fa) pl)).
Proof.
  intros Hh. unfold merge_final_answer, merged_final_answer.
  destruct (assoc_str "final_answer" kvs) as [x|] eqn:E; wp_pure;
    [|merged_done].
  destruct x as [| | | | | | | | | |sub]; cbn [isinstance_dict]; wp_pure;
    try by eapply wp_set_final_answer_fr.
  unfold pick.
  destruct (assoc_str "pre_messages" sub) as [v1|] eqn:E1;
  destruct (assoc_str "post_messages" sub) as [v2|] eqn:E2; wp_pure.
  - wp_use wp_set_final_answer_fr. wp_pure.
    wp_use wp_set_final_answer_fr. merged_done.
  - wp_use wp_set_final_answer_fr. wp_pure. merged_done.
  - wp_use wp_set_final_answer_fr. merged_done.
  - merged_done.
Qed.

Lemma wp_merge_planning_key_fr sp fa pl kvs sub key st :
  assoc_str "planning" kvs = Some (YDict sub) →
  framed_heap h0 pt sp fa pl (st_heap st) →
  wp (merge_planning_key pt (YDict kvs) key) st
     (merged (st_trace st) (framed_heap h0 pt sp fa (pick key sub pl))).
Proof.
  intros E Hh. unfold merge_planning_key, pick.
  destruct (assoc_str key sub) as [v|] eqn:Ek; wp_pure.
  - by eapply wp_set_planning_fr.
  - merged_done.
Qed.

Lemma wp_merge_planning_loop_fr sp fa kvs sub keys : ∀ pl st,
  assoc_str "planning" kvs = Some (YDict sub) →
  framed_heap h0 pt sp fa pl (st_heap st) →
  wp (for_each keys (merge_planning_key pt (YDict kvs))) st
     (merged (st_trace st)
        (framed_heap h0 pt sp fa (fold_left (λ acc k, pick k sub acc) keys pl))).
Proof.
  induction keys as [|key keys IH]; intros pl st E Hh; cbn [for_each fold_left].
  - wp_pure. merged_done.
  - apply wp_bind. wp_use wp_merge_planning_key_fr.
    eapply wp_conseq; [by apply IH|].
    intros r st2 (-> & Htr2 & ?). merged_done.
Qed.

Lemma wp_merge_planning_dict_fr sp fa pl kvs st :
  framed_heap h0 pt sp fa pl (st_heap st) →
  wp (merge_planning pt (YDict kvs)) st
     (merged (st_trace st) (framed_heap h0 pt sp fa (merged_planning kvs pl))).
Proof.
  intros Hh. unfold merge_planning, merged_planning.
  destruct (assoc_str "planning" kvs) as [x|] eqn:E; wp_pure; [|merged_done].
  destruct x as [| | | | | | | | | |sub]; cbn [isinstance_dict]; wp_pure;
    try merged_done.
  pose proof Hh as (((H0 & H1 & H2 & H3) & Hpt & _) & _).
  apply wp_bind. eapply wp_obj_getitem_ref; [done..|].
  apply wp_bind. eapply wp_obj_keys_ref; [done|].
  rewrite map_fst_vals. by apply wp_merge_planning_loop_fr.
Qed.
End framed_steps.

Lemma wp_dict_copy_fr fa pl st :
  module_heap fa pl (st_heap st) →
  wp (dict_copy DEFAULT_PROMPTS_loc) st
     (λ r st', r = Ok (fresh (dom (st_heap st))) ∧ st_trace st' = st_trace st ∧
               framed_heap (st_heap st) (fresh (dom (st_heap st)))
                 default_system_prompt fa pl (st_heap st')).
Proof.
  intros Hm.
  pose proof (wp_dict_copy fa pl st Hm) as Hstep.
  assert (wp (dict_copy DEFAULT_PROMPTS_loc) st
            (λ _ st', agree_outside (fresh (dom (st_heap st)))
                        (st_heap st) (st_heap st'))) as Hrest.
  { destruct Hm as (Hd & _).
    unfold wp. cbv [dict_copy deref bind get_heap ret put_heap]. rewrite Hd.
    cbn [fst snd st_heap]. intros l Hl _ _. by rewrite lookup_insert_ne. }
  eapply wp_conseq; [exact (wp_and _ _ _ _ Hstep Hrest)|].
  by intros r st' [(-> & Htr & Hh) Hfr].
Qed.

Lemma wp_load_prompt_templates_fr env fa pl st :
  module_heap fa pl (st_heap st) →
  wp (load_prompt_templates env) st
     (λ r st', r = Ok (fresh (dom (st_heap st))) ∧
               framed_heap (st_heap st) (fresh (dom (st_heap st)))
                 (merged_system_prompt (override_of env))
                 (merged_fa (override_of env) fa)
                 (merged_pl (override_of env) pl) (st_heap st')).
Proof.
  intros Hm. unfold load_prompt_templates, override_of.
  apply wp_bind. eapply wp_conseq; [by apply wp_dict_copy_fr|].
  intros r st1 (-> & Htr & Hh). set (pt := fresh (dom (st_heap st))) in *.
  wp_pure.
  destruct (env_open env "prompts.yaml") as [stream|e]; wp_pure; [|done].
  destruct (env_safe_load env stream) as [doc|e]; wp_pure; [|done].
  destruct (truthy doc) eqn:Et; wp_pure; [|done].
  destruct (isinstance_dict doc) eqn:Ed.
  - destruct doc as [| | | | | | | | | |kvs]; try discriminate.
    wp_use wp_merge_system_prompt_dict_fr. wp_pure.
    wp_use wp_merge_final_answer_dict_fr. wp_pure.
    wp_use wp_merge_planning_dict_fr. wp_pure. done.
  - assert (match doc with YDict kvs => Some kvs | _ => None end = None) as ->
      by (by destruct doc).
    eapply wp_conseq; [by apply wp_merge_system_prompt_other|].
    intros [[]|e] st2 ->; wp_pure; [|done].
    eapply wp_conseq; [by apply wp_merge_final_answer_other|].
    intros [[]|e] st2 ->; wp_pure; [|done].
    eapply wp_conseq; [by apply wp_merge_planning_other|].
    intros [[]|e] st2 ->; wp_pure; done.
Qed.

(** Assembly up to the call of the agent class: the store is what the
    loading step made of it, and the outcome is that of the agent class on
    the arguments of line 137. *)
Lemma wp_create_agent_fr env m fa pl st :
  module_heap fa pl (st_heap st) → prepares env m →
  wp (create_agent env) st
     (λ r st', ∃ agent,
        prompt_templates agent = fresh (dom (st_heap st)) ∧
        model agent = m ∧
        r = match env_CodeAgent env agent with
            | Ok _ => Ok agent
            | Raise e => Raise e
            end ∧
        framed_heap (st_heap st) (fresh (dom (st_heap st)))
          (merged_system_prompt (override_of env))
          (merged_fa (override_of env) fa)
          (merged_pl (override_of env) pl) (st_heap st')).
Proof.
  intros Hm (Hfin & Hvis & Hmodel).
  unfold create_agent, load_model, load_image_generation_tool.
  rewrite Hfin, Hvis, Hmodel. wp_pure.
  destruct (env_load_tool env "agents-course/text-to-image" true) as [t|e];
    wp_pure.
  - eapply wp_conseq; [by apply wp_load_prompt_templates_fr|].
    intros r st1 (-> & Hh). wp_pure.
    match goal with |- context [env_CodeAgent env ?a] =>
      destruct (env_CodeAgent env a) as [[]|e'] eqn:Eagent; wp_pure;
      exists a; rewrite Eagent end; done.
  - eapply wp_conseq; [by apply wp_load_prompt_templates_fr|].
    intros r st1 (-> & Hh). wp_pure.
    match goal with |- context [env_CodeAgent env ?a] =>
      destruct (env_CodeAgent env a) as [[]|e'] eqn:Eagent; wp_pure;
      exists a; rewrite Eagent end; done.
Qed.

Lemma assembles_prepares env :
  assembles env → ∃ m, prepares env m ∧ ∀ a, env_CodeAgent env a = Ok tt.
Proof. intros (Hfin & Hvis & [m Hmodel] & Hagent). by exists m. Qed.

(** X10.  An agent assembled earlier does not keep its templates: after a
    later call, the [final_answer] and [planning] sections read through
    the earlier agent are those of the later agent; its [system_prompt]
    alone is what it was. *)
Theorem X10_later_call_rewrites_earlier_agent env1 env2 st :
  wf_heap (st_heap st) → assembles env1 → assembles env2 →
  ∃ a1 st1 a2 st2,
    create_agent env1 st = (Ok a1, st1) ∧
    create_agent env2 st1 = (Ok a2, st2) ∧
    tree_at ["final_answer"] (templates_at (st_heap st2) (prompt_templates a1)) =
      tree_at ["final_answer"] (templates_at (st_heap st2) (prompt_templates a2)) ∧
    tree_at ["planning"] (templates_at (st_heap st2) (prompt_templates a1)) =
      tree_at ["planning"] (templates_at (st_heap st2) (prompt_templates a2)) ∧
    tree_at ["system_prompt"] (templates_at (st_heap st2) (prompt_templates a1)) =
      tree_at ["system_prompt"] (templates_at (st_heap st1) (prompt_templates a1)).
Proof.
  intros (fa & pl & Hfa & Hpl & Hm) Ha1 Ha2.
  destruct (assembles_prepares env1 Ha1) as (m1 & Hp1 & Hok1).
  destruct (assembles_prepares env2 Ha2) as (m2 & Hp2 & Hok2).
  destruct (wp_run _ _ _ (wp_create_agent_fr env1 m1 fa pl st Hm Hp1))
    as (r1 & st1 & Hrun1 & a1 & Hpt1 & _ & -> & Hh1 & _).
  rewrite Hok1 in Hrun1.
  pose proof (templates_at_loader _ _ _ _ _ Hh1) as Ht1.
  destruct Hh1 as (Hm1 & Htop1 & _ & Hne_fa & Hne_pl & _).
  destruct (wp_run _ _ _ (wp_create_agent_fr env2 m2 _ _ st1 Hm1 Hp2))
    as (r2 & st2 & Hrun2 & a2 & Hpt2 & _ & -> & Hh2 & Hrest).
  rewrite Hok2 in Hrun2.
  pose proof (templates_at_loader _ _ _ _ _ Hh2) as Ht2.
  assert (fresh (dom (st_heap st)) ≠ fresh (dom (st_heap st1))) as Hne.
  { intros Heq. apply (is_fresh (dom (st_heap st1))). rewrite <- Heq.
    apply elem_of_dom. eauto. }
  assert (templates_at (st_heap st2) (fresh (dom (st_heap st))) =
          template_tree (merged_system_prompt (override_of env1))
            (merged_fa (override_of env2) (merged_fa (override_of env1) fa))
            (merged_pl (override_of env2) (merged_pl (override_of env1) pl)))
    as Hold.
  { apply snapshot_top; [by destruct Hh2|]. by rewrite Hrest. }
  exists a1, st1, a2, st2. split; [done|]. split; [done|].
  rewrite Hpt1, Hpt2. rewrite Hold, Ht1, Ht2. done.
Qed.

Lemma X10_witness :
  wf_heap (st_heap initial_state) ∧
  assembles (env_with_doc (YDict doc_system_prompt_42)) ∧
  assembles (env_with_doc (YDict doc_all_sections)) ∧
  ∃ a1 st1 a2 st2,
    create_agent (env_with_doc (YDict doc_system_prompt_42)) initial_state =
      (Ok a1, st1) ∧
    create_agent (env_with_doc (YDict doc_all_sections)) st1 = (Ok a2, st2) ∧
    tree_at ["final_answer"] (templates_at (st_heap st2) (prompt_templates a1)) =
      tree_at ["final_answer"] (templates_at (st_heap st2) (prompt_templates a2)) ∧
    tree_at ["planning"] (templates_at (st_heap st2) (prompt_templates a1)) =
      tree_at ["planning"] (templates_at (st_heap st2) (prompt_templates a2)) ∧
    tree_at ["system_prompt"] (templates_at (st_heap st2) (prompt_templates a1)) =
      tree_at ["system_prompt"] (templates_at (st_heap st1) (prompt_templates a1)).
Proof.
  assert (wf_heap (st_heap initial_state)) as Hwf by exact wf_heap_initial.
  assert (assembles (env_with_doc (YDict doc_system_prompt_42))) as Ha1
    by apply assembles_env_of.
  assert (assembles (env_with_doc (YDict doc_all_sections))) as Ha2
    by apply assembles_env_of.
  repeat (split; [first [exact Hwf | exact Ha1 | exact Ha2]|]).
  exact (X10_later_call_rewrites_earlier_agent _ _ initial_state Hwf Ha1 Ha2).
Defined.

(** X11.  The merge is not undone when assembly fails after it: if the
    agent class rejects its arguments, [create_agent] raises that error
    unwrapped and returns no agent, yet a plain [final_answer] value [X]
    of the document is by then stored in [DEFAULT_PROMPTS]. *)
Theorem X11_failed_assembly_keeps_the_merge env m st kvs X e :
  wf_heap (st_heap st) → prepares env m →
  (∀ a, env_CodeAgent env a = Raise e) →
  loads env (YDict kvs) →
  assoc_str "final_answer" kvs = Some X → isinstance_dict X = false →
  ∃ st',
    create_agent env st = (Raise e, st') ∧
    tree_at ["final_answer"; "pre_messages"]
      (templates_at (st_heap st') DEFAULT_PROMPTS_loc) = Some (Leaf X).
Proof.
  intros (fa & pl & Hfa & Hpl & Hm) Hp Hrej Hl HX Hplain.
  destruct (wp_run _ _ _ (wp_create_agent_fr env m fa pl st Hm Hp))
    as (r & st' & Hrun & a & _ & _ & -> & Hh & _).
  rewrite Hrej in Hrun. exists st'. split; [done|].
  destruct Hh as (Hm' & _).
  rewrite (templates_at_module _ _ _ Hm'), tree_at_final_answer.
  rewrite (loads_override _ _ _ _ Hl HX). cbn [merged_fa].
  assert (merged_final_answer kvs fa = kv_set "pre_messages" X fa) as ->.
  { unfold merged_final_answer. rewrite HX. by destruct X. }
  apply tree_get_kv_set_eq.
Qed.

Lemma X11_witness :
  wf_heap (st_heap initial_state) ∧
  prepares (env_agent_rejects (YDict doc_final_answer_X)) backend_model ∧
  (∀ a, env_CodeAgent (env_agent_rejects (YDict doc_final_answer_X)) a =
        Raise (Exn (OtherException "ValueError") "bad arguments")) ∧
  loads (env_agent_rejects (YDict doc_final_answer_X)) (YDict doc_final_answer_X) ∧
  assoc_str "final_answer" doc_final_answer_X = Some (YStr "X") ∧
  isinstance_dict (YStr "X") = false ∧
  ∃ st',
    create_agent (env_agent_rejects (YDict doc_final_answer_X)) initial_state =
      (Raise (Exn (OtherException "ValueError") "bad arguments"), st') ∧
    tree_at ["final_answer"; "pre_messages"]
      (templates_at (st_heap st') DEFAULT_PROMPTS_loc) = Some (Leaf (YStr "X")).
Proof.
  assert (wf_heap (st_heap initial_state)) as Hwf by exact wf_heap_initial.
  assert (prepares (env_agent_rejects (YDict doc_final_answer_X)) backend_model)
    as Hp by (repeat split).
  assert (loads (env_agent_rejects (YDict doc_final_answer_X))
            (YDict doc_final_answer_X)) as Hl
    by (eexists; split; reflexivity).
  split; [exact Hwf|]. split; [exact Hp|]. split; [intros a; reflexivity|].
  split; [exact Hl|]. split; [reflexivity|]. split; [reflexivity|].
  exact (X11_failed_assembly_keeps_the_merge _ backend_model initial_state
           doc_final_answer_X (YStr "X") _ Hwf Hp (λ a, eq_refl) Hl
           eq_refl eq_refl).
Defined.

(** ** Assembly and its collaborators *)

(** X12.  An agent comes back only when every mandatory collaborator has
    succeeded: both tool classes constructed, the model backend handed out
    the very handle the agent carries, and the agent class accepted the
    arguments.  The agent then has the fixed settings of line 137 and the
    four fixed tools, followed by the hub tool when that one loaded. *)
Theorem X12_agent_only_from_working_collaborators env st agent st' :
  create_agent env st = (Ok agent, st') →
  env_FinalAnswerTool env = Ok tt ∧
  env_VisitWebpageTool env = Ok tt ∧
  env_HfApiModel env = Ok (model agent) ∧
  env_CodeAgent env agent = Ok tt ∧
  max_steps agent = 6%Z ∧ verbosity_level agent = 1%Z ∧
  grammar agent = None ∧ planning_interval agent = None ∧
  name agent = "Agent" ∧
  description agent = "A CodeAgent with improved capabilities" ∧
  tools agent =
    ([ Tool_my_custom_tool; Tool_get_current_time_in_timezone;
       Tool_final_answer; Tool_visit_webpage ] ++
     match env_load_tool env "agents-course/text-to-image" true with
     | Ok t => [t]
     | Raise _ => []
     end)%list.
Proof.
  unfold create_agent, load_model, load_image_generation_tool.
  cbv [bind try_except call emit logger ret raise].
  destruct (env_FinalAnswerTool env) as [[]|e0]; [|discriminate].
  destruct (env_VisitWebpageTool env) as [[]|e1]; [|discriminate].
  destruct (env_HfApiModel env) as [m|e2]; [|discriminate].
  destruct (env_load_tool env "agents-course/text-to-image" true) as [t|e3].
  - destruct (load_prompt_templates env _) as [[pt|e4] st2]; [|discriminate].
    match goal with |- context [env_CodeAgent env ?a] =>
      destruct (env_CodeAgent env a) as [[]|e5] eqn:Eagent end; [|discriminate].
    intros [= <- <-]. repeat (split; [first [reflexivity | exact Eagent]|]).
    reflexivity.
  - destruct (load_prompt_templates env _) as [[pt|e4] st2]; [|discriminate].
    match goal with |- context [env_CodeAgent env ?a] =>
      destruct (env_CodeAgent env a) as [[]|e5] eqn:Eagent end; [|discriminate].
    intros [= <- <-]. repeat (split; [first [reflexivity | exact Eagent]|]).
    reflexivity.
Qed.

Lemma X12_witness :
  ∃ agent st',
    create_agent env_hub_down initial_state = (Ok agent, st') ∧
    env_HfApiModel env_hub_down = Ok (model agent) ∧
    max_steps agent = 6%Z ∧ planning_interval agent = None ∧
    tools agent =
      [ Tool_my_custom_tool; Tool_get_current_time_in_timezone;
        Tool_final_answer; Tool_visit_webpage ].
Proof.
  assert (∃ agent st', create_agent env_hub_down initial_state = (Ok agent, st'))
    as (agent & st' & Hrun) by (do 2 eexists; vm_compute; reflexivity).
  exists agent, st'.
  destruct (X12_agent_only_from_working_collaborators _ _ _ _ Hrun)
    as (_ & _ & Hmodel & _ & Hsteps & _ & _ & Hplan & _ & _ & Htools).
  split; [exact Hrun|]. split; [exact Hmodel|]. split; [exact Hsteps|].
  split; [exact Hplan|]. exact Htools.
Defined.

(** X13.  A tool class that fails to construct ends [create_agent] at
    once, with the error as raised (not wrapped as a model failure is):
    the model backend has not been asked, and the store is as it was. *)
Theorem X13_tool_class_failure_is_not_wrapped env st e :
  (env_FinalAnswerTool env = Raise e →
   create_agent env st =
     (Raise e, State (st_heap st) (st_trace st ++ [Call CallFinalAnswerTool]))) ∧
  (env_FinalAnswerTool env = Ok tt → env_VisitWebpageTool env = Raise e →
   create_agent env st =
     (Raise e,
      State (st_heap st)
        (st_trace st ++ [Call CallFinalAnswerTool; Call CallVisitWebpageTool]))).
Proof.
  split.
  - intros Hfin. unfold create_agent.
    cbv [bind call emit ret st_heap st_trace]. by rewrite Hfin.
  - intros Hfin Hvis. unfold create_agent.
    cbv [bind call emit ret st_heap st_trace]. rewrite Hfin, Hvis.
    by rewrite <- !app_assoc.
Qed.

Lemma X13_witness :
  env_FinalAnswerTool env_tools_down =
    Raise (Exn TypeError "__init__() missing argument") ∧
  create_agent env_tools_down initial_state =
    (Raise (Exn TypeError "__init__() missing argument"),
     State initial_heap [Call CallFinalAnswerTool]).
Proof.
  split; [reflexivity|].
  exact (proj1 (X13_tool_class_failure_is_not_wrapped env_tools_down initial_state
                  (Exn TypeError "__init__() missing argument")) eq_refl).
Defined.

(** ** The timezone tool *)

(** X14.  The text the timezone tool returns tells failure from success:
    it starts with [Error fetching time for timezone] exactly when the
    timezone lookup or the clock raised.  The tool leaves the store
    alone. *)
Theorem X14_timezone_error_text_iff_failure te timezone st :
  ∃ s st',
    get_current_time_in_timezone te timezone st = (Ok s, st') ∧
    st_heap st' = st_heap st ∧
    (String.prefix "Error fetching time for timezone" s = true ↔
     (∃ e, pytz_timezone te timezone = Raise e) ∨
     (∃ tz e, pytz_timezone te timezone = Ok tz ∧
              now_strftime te tz "%Y-%m-%d %H:%M:%S" = Raise e)).
Proof.
  unfold get_current_time_in_timezone.
  cbv [bind try_except call emit logger ret].
  destruct (pytz_timezone te timezone) as [tz|e0].
  - destruct (now_strftime te tz "%Y-%m-%d %H:%M:%S") as [t|e1] eqn:Eclock;
      do 2 eexists; (split; [reflexivity|]); (split; [reflexivity|]).
    + split; [discriminate|].
      intros [[e [=]]|(tz' & e & [= <-] & Hclock)]. congruence.
    + split; [eauto 6|reflexivity].
  - do 2 eexists. split; [reflexivity|]. split; [reflexivity|].
    split; [eauto|reflexivity].
Qed.

Lemma X14_witness :
  ∃ s st',
    get_current_time_in_timezone tz_env_clock_fails "UTC" initial_state = (Ok s, st') ∧
    st_heap st' = initial_heap ∧
    String.prefix "Error fetching time for timezone" s = true.
Proof.
  destruct (X14_timezone_error_text_iff_failure tz_env_clock_fails "UTC" initial_state)
    as (s & st' & Hrun & Hheap & Hiff).
  exists s, st'. split; [exact Hrun|]. split; [exact Hheap|].
  apply Hiff. right. exists (Tz "UTC"), (Exn OSError "clock unavailable").
  split; reflexivity.
Defined.

(** ** The entry point *)

(** X15.  A failing import ends [run_app] before anything else happens:
    no tool class, no model backend, no file is touched and the store is
    as it was.  The trace holds the imports attempted and, for an
    [ImportError] only, the logged error. *)
Theorem X15_failed_import_stops_everything env ui st e :
  (env_import_gradio ui = Raise e →
   run_app env ui st =
     (Raise e,
      State (st_heap st)
        (st_trace st ++
         Call (CallImport "gradio") ::
         (if is_ImportError e
          then [Log ERROR ("Error importing Gradio: " +:+ exn_str e)]
          else [])))) ∧
  (env_import_gradio ui = Ok tt → env_import_Gradio_UI ui = Raise e →
   run_app env ui st =
     (Raise e,
      State (st_heap st)
        (st_trace st ++
         Call (CallImport "gradio") :: Call (CallImport "Gradio_UI") ::
         (if is_ImportError e
          then [Log ERROR ("Error importing Gradio: " +:+ exn_str e)]
          else [])))).
Proof.
  split.
  - intros Hg. unfold run_app.
    cbv [bind try_except try_except_ImportError call emit logger ret raise
         st_heap st_trace].
    rewrite Hg. destruct (is_ImportError e); [|done].
    by rewrite <- !app_assoc.
  - intros Hg Hui. unfold run_app.
    cbv [bind try_except try_except_ImportError call emit logger ret raise
         st_heap st_trace].
    rewrite Hg, Hui. destruct (is_ImportError e); by rewrite <- !app_assoc.
Qed.

Lemma X15_witness :
  env_import_gradio ui_no_gradio =
    Raise (Exn ModuleNotFoundError "No module named 'gradio'") ∧
  run_app env_no_file ui_no_gradio initial_state =
    (Raise (Exn ModuleNotFoundError "No module named 'gradio'"),
     State initial_heap
       [ Call (CallImport "gradio");
         Log ERROR "Error importing Gradio: No module named 'gradio'" ]).
Proof.
  split; [reflexivity|].
  exact (proj1 (X15_failed_import_stops_everything env_no_file ui_no_gradio
                  initial_state
                  (Exn ModuleNotFoundError "No module named 'gradio'")) eq_refl).
Defined.

(** X16.  With both imports done, [run_app] is [create_agent] followed
    by the UI: the page is built only for an assembled agent and launched
    only once built; a failure at any of the three is logged and printed
    and ends the run normally; and the store is left as [create_agent]
    left it. *)
Theorem X16_ui_follows_assembly env ui st :
  env_import_gradio ui = Ok tt → env_import_Gradio_UI ui = Ok tt →
  let imported :=
    State (st_heap st)
      (st_trace st ++ [Call (CallImport "gradio"); Call (CallImport "Gradio_UI")]) in
  let failed e :=
    [ Log ERROR ("Failed to start application: " +:+ exn_str e);
      Print ("Critical error: " +:+ exn_str e) ] in
  ∃ tail,
    run_app env ui st =
      (Ok tt,
       State (st_heap (create_agent env imported).2)
         (st_trace (create_agent env imported).2 ++ tail)) ∧
    tail =
      match (create_agent env imported).1 with
      | Raise e => failed e
      | Ok _ =>
          Call CallBuildBlocks ::
          match env_build_blocks ui with
          | Raise e => failed e
          | Ok _ =>
              Call (CallLaunch "0.0.0.0" false false) ::
              match env_launch ui with
              | Raise e => failed e
              | Ok _ => []
              end
          end
      end.
Proof.
  intros Hg Hui imported failed. eexists. split; [|reflexivity].
  unfold run_app, start_application.
  cbv [bind try_except try_except_ImportError call emit logger print ret].
  rewrite Hg, Hui. cbn [st_heap st_trace]. rewrite <- !app_assoc. cbn [app].
  fold imported.
  destruct (create_agent env imported) as [[a|e] [h1 tr1]];
    cbn [fst snd st_heap st_trace].
  - destruct (env_build_blocks ui) as [[]|e1].
    + destruct (env_launch ui) as [[]|e2]; subst failed;
        cbn [st_heap st_trace]; by rewrite <- ?app_assoc.
    + subst failed. cbn [st_heap st_trace]. by rewrite <- !app_assoc.
  - subst failed. cbn [st_heap st_trace]. by rewrite <- ?app_assoc.
Qed.

Lemma X16_witness :
  env_import_gradio ui_build_fails = Ok tt ∧
  env_import_Gradio_UI ui_build_fails = Ok tt ∧
  ∃ st',
    run_app env_no_file ui_build_fails initial_state = (Ok tt, st') ∧
    st_trace st' =
      [ Call (CallImport "gradio"); Call (CallImport "Gradio_UI");
        Call CallFinalAnswerTool; Call CallVisitWebpageTool;
        Call CallHfApiModel; Log INFO "Successfully loaded model";
        Call (CallLoadTool "agents-course/text-to-image" true);
        Log INFO "Successfully loaded image generation tool";
        Call (CallOpen "prompts.yaml");
        Log ERROR "Error loading prompts.yaml: [Errno 2] No such file or directory: 'prompts.yaml'";
        Log INFO "Using default templates";
        Call CallCodeAgent;
        Call CallBuildBlocks;
        Log ERROR "Failed to start application: unexpected keyword argument";
        Print "Critical error: unexpected keyword argument" ].
Proof.
  split; [reflexivity|]. split; [reflexivity|].
  destruct (X16_ui_follows_assembly env_no_file ui_build_fails initial_state
              eq_refl eq_refl) as (tail & Hrun & Htail).
  eexists. split; [exact Hrun|]. rewrite Htail. by vm_compute.
Defined.

(** ** What the loading step logs *)

Lemma wp_loading_log env fa pl st :
  module_heap fa pl (st_heap st) →
  wp (load_prompt_templates env) st
     (λ r st', (∃ pt, r = Ok pt) ∧
               ∀ log, loading_log env = Some log →
                      st_trace st' = (st_trace st ++ log)%list).
Proof.
  intros Hm. unfold load_prompt_templates, loading_log.
  apply wp_bind. eapply wp_conseq; [by apply wp_dict_copy|].
  intros r st1 (-> & Htr & Hh). wp_pure.
  destruct (env_open env "prompts.yaml") as [stream|e]; wp_pure.
  2: { split; [eauto|]. intros log [= <-]. by rewrite Htr, <- !app_assoc. }
  destruct (env_safe_load env stream) as [doc|e]; wp_pure.
  2: { split; [eauto|]. intros log [= <-]. by rewrite Htr, <- !app_assoc. }
  destruct (truthy doc) eqn:Et; wp_pure.
  2: { split; [eauto|]. intros log [= <-]. by rewrite Htr, <- !app_assoc. }
  destruct (isinstance_dict doc) eqn:Ed.
  - destruct doc as [| | | | | | | | | |kvs]; try discriminate.
    wp_use wp_merge_system_prompt_dict. wp_pure.
    wp_use wp_merge_final_answer_dict. wp_pure.
    wp_use wp_merge_planning_dict. wp_pure.
    split; [eauto|]. intros log [= <-]. cbn [st_trace] in *.
    rewrite Htr2, Htr1, Htr0, Htr. by rewrite <- !app_assoc.
  - assert (match doc with
            | YDict _ =>
                Some [ Call (CallOpen "prompts.yaml"); Call CallSafeLoad;
                       Log INFO "Successfully merged prompt templates" ]
            | _ => None
            end = None) as -> by (by destruct doc).
    eapply wp_conseq; [by apply wp_merge_system_prompt_other|].
    intros [[]|e] st2 ->; wp_pure; [|by split; [eauto|]].
    eapply wp_conseq; [by apply wp_merge_final_answer_other|].
    intros [[]|e] st2 ->; wp_pure; [|by split; [eauto|]].
    eapply wp_conseq; [by apply wp_merge_planning_other|].
    intros [[]|e] st2 ->; wp_pure; by split; [eauto|].
Qed.

(** X17.  The loading step always returns, and its log tells its cases
    apart: a file that does not open, or does not parse, is logged as an
    error followed by [Using default templates]; a merged mapping is
    logged as [Successfully merged prompt templates]; a document that
    parses to an empty value is taken without a word. *)
Theorem X17_loading_step_log env st :
  wf_heap (st_heap st) →
  ∃ pt st',
    load_prompt_templates env st = (Ok pt, st') ∧
    (∀ e, env_open env "prompts.yaml" = Raise e →
       st_trace st' =
         (st_trace st ++
          [ Call (CallOpen "prompts.yaml");
            Log ERROR ("Error loading prompts.yaml: " +:+ exn_str e);
            Log INFO "Using default templates" ])%list) ∧
    (∀ stream e, env_open env "prompts.yaml" = Ok stream →
       env_safe_load env stream = Raise e →
       st_trace st' =
         (st_trace st ++
          [ Call (CallOpen "prompts.yaml"); Call CallSafeLoad;
            Log ERROR ("Error loading prompts.yaml: " +:+ exn_str e);
            Log INFO "Using default templates" ])%list) ∧
    (∀ doc, loads env doc → truthy doc = false →
       st_trace st' =
         (st_trace st ++
          [ Call (CallOpen "prompts.yaml"); Call CallSafeLoad ])%list) ∧
    (∀ kvs, loads env (YDict kvs) → truthy (YDict kvs) = true →
       st_trace st' =
         (st_trace st ++
          [ Call (CallOpen "prompts.yaml"); Call CallSafeLoad;
            Log INFO "Successfully merged prompt templates" ])%list).
Proof.
  intros (fa & pl & Hfa & Hpl & Hm).
  destruct (wp_run _ _ _ (wp_loading_log env fa pl st Hm))
    as (r & st' & Hrun & [pt ->] & Hlog).
  exists pt, st'. split; [done|]. unfold loading_log in Hlog.
  split; [|split; [|split]].
  - intros e He. apply Hlog. by rewrite He.
  - intros stream e Hs He. apply Hlog. by rewrite Hs, He.
  - intros doc (stream & Hs & Hd) Hf. apply Hlog. by rewrite Hs, Hd, Hf.
  - intros kvs (stream & Hs & Hd) Ht. apply Hlog. by rewrite Hs, Hd, Ht.
Qed.

Lemma X17_witness :
  wf_heap (st_heap initial_state) ∧
  loads (env_with_doc (YDict [])) (YDict []) ∧ truthy (YDict []) = false ∧
  ∃ pt st',
    load_prompt_templates (env_with_doc (YDict [])) initial_state = (Ok pt, st') ∧
    st_trace st' = [ Call (CallOpen "prompts.yaml"); Call CallSafeLoad ].
Proof.
  assert (wf_heap (st_heap initial_state)) as Hwf by exact wf_heap_initial.
  assert (loads (env_with_doc (YDict [])) (YDict [])) as Hl
    by (eexists; split; reflexivity).
  split; [exact Hwf|]. split; [exact Hl|]. split; [reflexivity|].
  destruct (X17_loading_step_log (env_with_doc (YDict [])) initial_state Hwf)
    as (pt & st' & Hrun & _ & _ & Hempty & _).
  exists pt, st'. split; [exact Hrun|]. exact (Hempty _ Hl eq_refl).
Defined.

(** X18.  The success line does not mean that anything was merged: for a
    truthy document in which none of [system_prompt], [final_answer] and
    [planning] is found (a mapping with other keys, a list, a plain
    string), the loading step logs
    [Successfully merged prompt templates] and hands out what
    [DEFAULT_PROMPTS] held on entry. *)
Theorem X18_success_logged_though_nothing_merged env st doc :
  wf_heap (st_heap st) → loads env doc → truthy doc = true →
  contains "system_prompt" doc = Ok false →
  contains "final_answer" doc = Ok false →
  contains "planning" doc = Ok false →
  ∃ pt st',
    load_prompt_templates env st = (Ok pt, st') ∧
    st_trace st' =
      (st_trace st ++
       [ Call (CallOpen "prompts.yaml"); Call CallSafeLoad;
         Log INFO "Successfully merged prompt templates" ])%list ∧
    templates_at (st_heap st') pt = templates_at (st_heap st) DEFAULT_PROMPTS_loc.
Proof.
  intros (fa & pl & Hfa & Hpl & Hm) (stream & Hopen & Hload) Ht H1 H2 H3.
  assert (wp (load_prompt_templates env) st
            (λ r st', ∃ pt, r = Ok pt ∧
               st_trace st' =
                 (st_trace st ++
                  [ Call (CallOpen "prompts.yaml"); Call CallSafeLoad;
                    Log INFO "Successfully merged prompt templates" ])%list ∧
               loader_heap pt default_system_prompt fa pl (st_heap st'))) as Hwp.
  { unfold load_prompt_templates.
    apply wp_bind. eapply wp_conseq; [by apply wp_dict_copy|].
    intros r st1 (-> & Htr & Hh). wp_pure. rewrite Hopen. wp_pure.
    rewrite Hload. wp_pure. rewrite Ht.
    unfold merge_system_prompt, merge_final_answer, merge_planning.
    wp_pure. rewrite H1. wp_pure. rewrite H2. wp_pure. rewrite H3. wp_pure.
    eexists. split; [done|]. split; [|done].
    by rewrite Htr, <- !app_assoc. }
  destruct (wp_run _ _ _ Hwp) as (r & st' & Hrun & pt & -> & Htr & Hh).
  exists pt, st'. split; [done|]. split; [done|].
  by rewrite (templates_at_loader _ _ _ _ _ Hh), (templates_at_module _ _ _ Hm).
Qed.

Lemma X18_witness :
  wf_heap (st_heap initial_state) ∧
  loads (env_with_doc (YStr "hello")) (YStr "hello") ∧
  truthy (YStr "hello") = true ∧
  contains "system_prompt" (YStr "hello") = Ok false ∧
  contains "final_answer" (YStr "hello") = Ok false ∧
  contains "planning" (YStr "hello") = Ok false ∧
  ∃ pt st',
    load_prompt_templates (env_with_doc (YStr "hello")) initial_state = (Ok pt, st') ∧
    st_trace st' =
      [ Call (CallOpen "prompts.yaml"); Call CallSafeLoad;
        Log INFO "Successfully merged prompt templates" ] ∧
    templates_at (st_heap st') pt =
      templates_at (st_heap initial_state) DEFAULT_PROMPTS_loc.
Proof.
  assert (wf_heap (st_heap initial_state)) as Hwf by exact wf_heap_initial.
  assert (loads (env_with_doc (YStr "hello")) (YStr "hello")) as Hl
    by (eexists; split; reflexivity).
  repeat (split; [first [exact Hwf | exact Hl | reflexivity]|]).
  exact (X18_success_logged_though_nothing_merged _ initial_state (YStr "hello")
           Hwf Hl eq_refl eq_refl eq_refl eq_refl).
Defined.
